(** * Stock ledger and maintenance state machine of cmt_inventory (src/app.py)

    A shallow embedding of the consumable stock helpers of [src/app.py]
    ([_to_int], [_clamp_nonneg], [normalize_row_nonnegatives],
    [recalc_row_level_values], [consume_by_id], [use_consumable_row],
    [return_consumable], [_expiration_sort_key]) and of the maintenance
    status updates
    ([maintenance], [add_maintenance], [edit_maintenance],
    [complete_maintenance]).  The database session is modelled as a list of
    rows in query order; every route reads and writes the row through its
    id, so the object shared by a route and the helpers it calls is the one
    entry of that list. *)

From Stdlib Require Import ZArith List String Ascii Bool Lia.
Import ListNotations.
Open Scope Z_scope.

(** ** Python values read from a form or a column *)

(** [PyOther r] is any other object; [r] is the result of [str(value)],
    [None] when [str] raises.  Booleans are not modelled: the columns the
    helpers read are [Integer] columns and the form fields are strings. *)
Inductive py_value : Type :=
| PyNone
| PyInt (z : Z)
| PyStr (s : string)
| PyOther (r : option string).

(** ** String helpers: [str.strip], [str.upper], [int(str)] on ASCII text *)

Definition is_space (c : ascii) : bool :=
  let n := nat_of_ascii c in
  ((9 <=? n) && (n <=? 13))%nat || ((28 <=? n) && (n <=? 32))%nat.

Fixpoint lstrip (s : string) : string :=
  match s with
  | EmptyString => EmptyString
  | String c s' => if is_space c then lstrip s' else s
  end.

Definition rev_string (s : string) : string :=
  string_of_list_ascii (rev (list_ascii_of_string s)).

Definition strip (s : string) : string :=
  rev_string (lstrip (rev_string (lstrip s))).

Definition upper_char (c : ascii) : ascii :=
  let n := nat_of_ascii c in
  if ((97 <=? n) && (n <=? 122))%nat then ascii_of_nat (n - 32) else c.

Fixpoint upper (s : string) : string :=
  match s with
  | EmptyString => EmptyString
  | String c s' => String (upper_char c) (upper s')
  end.

Definition is_digit (c : ascii) : bool :=
  let n := nat_of_ascii c in ((48 <=? n) && (n <=? 57))%nat.

Definition digit_value (c : ascii) : Z := Z.of_nat (nat_of_ascii c) - 48.

(** Digits with single underscores between them, as [int()] accepts. *)
Fixpoint digits_value (cs : list ascii) (acc : Z) (after_us : bool) : option Z :=
  match cs with
  | [] => if after_us then None else Some acc
  | c :: cs' =>
      if is_digit c then digits_value cs' (acc * 10 + digit_value c) false
      else if Ascii.eqb c "_"%char then
        if after_us then None else digits_value cs' acc true
      else None
  end.

Definition parse_unsigned (cs : list ascii) : option Z :=
  match cs with
  | c :: cs' => if is_digit c then digits_value cs' (digit_value c) false else None
  | [] => None
  end.

(** [int(s)] for a base-10 string; [None] where Python raises [ValueError]. *)
Definition py_int (s : string) : option Z :=
  match list_ascii_of_string s with
  | c :: cs =>
      if Ascii.eqb c "+"%char then parse_unsigned cs
      else if Ascii.eqb c "-"%char then option_map Z.opp (parse_unsigned cs)
      else parse_unsigned (c :: cs)
  | [] => None
  end.

(** ** [_to_int] and [_clamp_nonneg] *)

Definition to_int_of_str (s0 : string) (default : Z) : Z :=
  let s := strip s0 in
  if String.eqb s "" || String.eqb (upper s) "N/A" then default
  else match py_int s with
       | Some z => z
       | None => default
       end.

Definition _to_int (value : py_value) (default : Z) : Z :=
  match value with
  | PyNone => default
  | PyInt z => z
  | PyStr s => to_int_of_str s default
  | PyOther (Some s) => to_int_of_str s default
  | PyOther None => default
  end.

Definition _clamp_nonneg (x0 : py_value) : Z :=
  let x := _to_int x0 0 in
  if x <? 0 then 0 else x.

(** ** The [Consumable] row (models.py) *)

Record Consumable : Type := mkConsumable {
  c_id : Z;
  balance_stock : py_value;
  description : string;
  expiration : option string;
  items_out : py_value;
  items_on_stock : py_value;
  previous_month_stock : py_value;
  units_consumed : py_value;
  is_returnable : bool
}.

Definition set_items_out (r : Consumable) (v : py_value) : Consumable :=
  {| c_id := c_id r; balance_stock := balance_stock r; description := description r;
     expiration := expiration r; items_out := v; items_on_stock := items_on_stock r;
     previous_month_stock := previous_month_stock r; units_consumed := units_consumed r;
     is_returnable := is_returnable r |}.

Definition set_units_consumed (r : Consumable) (v : py_value) : Consumable :=
  {| c_id := c_id r; balance_stock := balance_stock r; description := description r;
     expiration := expiration r; items_out := items_out r; items_on_stock := items_on_stock r;
     previous_month_stock := previous_month_stock r; units_consumed := v;
     is_returnable := is_returnable r |}.

Definition normalize_row_nonnegatives (row : Consumable) : Consumable :=
  {| c_id := c_id row; balance_stock := balance_stock row; description := description row;
     expiration := expiration row;
     items_out := PyInt (_clamp_nonneg (items_out row));
     items_on_stock := PyInt (_clamp_nonneg (items_on_stock row));
     previous_month_stock := previous_month_stock row;
     units_consumed := PyInt (_clamp_nonneg (units_consumed row));
     is_returnable := is_returnable row |}.

Definition recalc_row_level_values (row0 : Consumable) : Consumable :=
  let row := normalize_row_nonnegatives row0 in
  let row_balance_stock :=
    _clamp_nonneg (PyInt (_to_int (items_out row) 0 + _to_int (items_on_stock row) 0)) in
  let row_previous_month_stock :=
    _clamp_nonneg (PyInt (_to_int (items_out row) 0 + _to_int (items_on_stock row) 0
                          + _to_int (units_consumed row) 0)) in
  {| c_id := c_id row; balance_stock := PyInt row_balance_stock;
     description := description row; expiration := expiration row;
     items_out := items_out row; items_on_stock := items_on_stock row;
     previous_month_stock := PyInt row_previous_month_stock;
     units_consumed := units_consumed row; is_returnable := is_returnable row |}.

Definition recalc_single_row (row : Consumable) : Consumable :=
  recalc_row_level_values row.

Example to_int_ex1 : _to_int (PyStr " 1_000 ") 7 = 1000. Proof. reflexivity. Qed.
Example to_int_ex2 : _to_int (PyStr "n/a") 7 = 7. Proof. reflexivity. Qed.
Example to_int_ex3 : _to_int (PyStr "-12") 0 = -12. Proof. reflexivity. Qed.
Example to_int_ex4 : _to_int (PyStr "3.5") 4 = 4. Proof. reflexivity. Qed.
Example to_int_ex5 : _to_int (PyStr "1__0") 4 = 4. Proof. reflexivity. Qed.
Example clamp_ex : _clamp_nonneg (PyStr "-5") = 0. Proof. reflexivity. Qed.

(** ** The session: consumable rows and usage logs *)

Definition store := list Consumable.

(** [Consumable.query.get(id)]. *)
Definition query_get (s : store) (i : Z) : option Consumable :=
  find (fun r => c_id r =? i) s.

(** Writing attributes of the session object with id [i]. *)
Definition store_update (s : store) (i : Z) (f : Consumable -> Consumable) : store :=
  map (fun r => if c_id r =? i then f r else r) s.

(** [UsageLog] with the columns of models.py (there is no
    [quantity_returned] column). *)
Record UsageLog : Type := mkUsageLog {
  u_id : Z;
  consumable_id : Z;
  quantity_used : py_value;
  returned_at : option Z
}.

Record db_state : Type := mkDb {
  consumables : store;
  usage_logs : list UsageLog
}.

Definition log_get (ls : list UsageLog) (i : Z) : option UsageLog :=
  find (fun l => u_id l =? i) ls.

Definition log_update (ls : list UsageLog) (i : Z) (f : UsageLog -> UsageLog) : list UsageLog :=
  map (fun l => if u_id l =? i then f l else l) ls.

Definition set_returned_at (l : UsageLog) (t : Z) : UsageLog :=
  {| u_id := u_id l; consumable_id := consumable_id l; quantity_used := quantity_used l;
     returned_at := Some t |}.

(** ** Policy B: [consume_by_id] *)

Definition consume_by_id (s : store) (consumable_id : Z) (quantity : py_value) : store * Z :=
  let remaining := _clamp_nonneg quantity in
  if remaining =? 0 then (s, 0)
  else match query_get s consumable_id with
       | None => (s, remaining)
       | Some c =>
           let out := _clamp_nonneg (items_out c) in
           if out <=? 0 then (s, remaining)
           else
             let take := Z.min out remaining in
             (store_update s consumable_id (fun c => set_items_out c (PyInt (out - take))),
              remaining - take)
       end.

(** The POST branch of the route [use_consumable_row]; [None] is the 404 of
    [get_or_404], [new_log] the id given to the inserted [UsageLog].  The
    remainder returned by [consume_by_id] is discarded by the route. *)
Definition use_consumable_row (d : db_state) (id new_log : Z) (form_quantity : py_value)
  : option db_state :=
  match query_get (consumables d) id with
  | None => None
  | Some c =>
      let quantity_used := _clamp_nonneg form_quantity in
      if 0 <? quantity_used then
        let logs := usage_logs d ++ [mkUsageLog new_log (c_id c) (PyInt quantity_used) None] in
        let s1 := store_update (consumables d) (c_id c)
                    (fun c => set_units_consumed c
                                (PyInt (_to_int (units_consumed c) 0 + quantity_used))) in
        let s2 := fst (consume_by_id s1 (c_id c) (PyInt quantity_used)) in
        let s3 := store_update s2 (c_id c) recalc_single_row in
        Some (mkDb s3 logs)
      else Some d
  end.

(** ** [return_consumable] (POST branch)

    [None] is the 404 of [get_or_404].  The result pairs the new state with
    the value assigned to [log.quantity_returned]: that attribute is not a
    column of [UsageLog], so it lives on the Python object only and is not
    part of the stored state.  The optional [StudentNote] and the audit log
    entry are side records outside this model. *)
Definition return_consumable (d : db_state) (usage_id now : Z) (form_quantity : py_value)
  : option (db_state * option Z) :=
  match log_get (usage_logs d) usage_id with
  | None => None
  | Some log =>
      match query_get (consumables d) (consumable_id log) with
      | None => Some (d, None)
      | Some c =>
          if negb (is_returnable c) then Some (d, None)
          else
            let quantity_returned := _clamp_nonneg form_quantity in
            match returned_at log with
            | Some _ => Some (d, None)
            | None =>
                let logs := log_update (usage_logs d) usage_id (fun l => set_returned_at l now) in
                let cid := consumable_id log in
                let '(s1, attr) :=
                  if 0 <? quantity_returned then
                    (store_update (consumables d) cid
                       (fun c => set_items_out c
                                   (PyInt (_to_int (items_out c) 0 + quantity_returned))),
                     Some quantity_returned)
                  else (consumables d, None) in
                let s2 := store_update s1 cid recalc_single_row in
                Some (mkDb s2 logs, attr)
            end
      end
  end.

(** ** [_expiration_sort_key] *)

Fixpoint count_char (c : ascii) (s : string) : nat :=
  match s with
  | EmptyString => 0
  | String c' s' => (if Ascii.eqb c c' then 1 else 0) + count_char c s'
  end.

Definition _expiration_sort_key (exp : option string) : Z * string :=
  let s := strip (match exp with Some e => e | None => "" end) in
  if (String.length s =? 10)%nat && (count_char "-"%char s =? 2)%nat then (0, s)
  else (1, s).

(** Python's ordering of [(int, str)] tuples. *)
Definition key_compare (k1 k2 : Z * string) : comparison :=
  match Z.compare (fst k1) (fst k2) with
  | Eq => String.compare (snd k1) (snd k2)
  | o => o
  end.

(** ** [EquipmentMaintenance] status

    Dates are day numbers; [today] is [date.today()] at the time of the
    request.  The status column only ever receives the three strings
    'scheduled', 'completed' and 'overdue'. *)

Inductive mstatus : Type := Scheduled | Completed | Overdue.

Definition mstatus_eqb (a b : mstatus) : bool :=
  match a, b with
  | Scheduled, Scheduled | Completed, Completed | Overdue, Overdue => true
  | _, _ => false
  end.

Record Maintenance : Type := mkMaint {
  m_id : Z;
  scheduled_date : Z;
  completed_date : option Z;
  status : mstatus
}.

Definition set_status (r : Maintenance) (st : mstatus) : Maintenance :=
  {| m_id := m_id r; scheduled_date := scheduled_date r;
     completed_date := completed_date r; status := st |}.

(** The loop of the route [maintenance] (and of the dashboard reads) over
    the records it loaded. *)
Definition overdue_update (today : Z) (record : Maintenance) : Maintenance :=
  if mstatus_eqb (status record) Scheduled && (scheduled_date record <? today)
  then set_status record Overdue else record.

(** The read updates the records its query selects (search, status, type
    and date filters, or a [limit]); [selected] is that query. *)
Definition maintenance_read (today : Z) (selected : Maintenance -> bool)
  (records : list Maintenance) : list Maintenance :=
  map (fun r => if selected r then overdue_update today r else r) records.

Definition add_maintenance (id sched : Z) (records : list Maintenance) : list Maintenance :=
  records ++ [mkMaint id sched None Scheduled].

(** The status part of [edit_maintenance]; [completed] is [None] when the
    form field is empty. *)
Definition edit_record (today sched : Z) (completed : option Z) (record : Maintenance)
  : Maintenance :=
  match completed with
  | Some cd => {| m_id := m_id record; scheduled_date := sched;
                  completed_date := Some cd; status := Completed |}
  | None => {| m_id := m_id record; scheduled_date := sched; completed_date := None;
               status := if sched <? today then Overdue else Scheduled |}
  end.

Definition edit_maintenance (today id sched : Z) (completed : option Z)
  (records : list Maintenance) : list Maintenance :=
  map (fun r => if m_id r =? id then edit_record today sched completed r else r) records.

Definition complete_maintenance (today id : Z) (records : list Maintenance)
  : list Maintenance :=
  map (fun r => if m_id r =? id
                then {| m_id := m_id r; scheduled_date := scheduled_date r;
                        completed_date := Some today; status := Completed |}
                else r) records.

Definition delete_maintenance (id : Z) (records : list Maintenance) : list Maintenance :=
  filter (fun r => negb (m_id r =? id)) records.

Inductive maint_op : Type :=
| MAdd (id sched : Z)
| MEdit (id sched : Z) (completed : option Z)
| MComplete (id : Z)
| MDelete (id : Z)
| MRead (selected : Maintenance -> bool).

Definition apply_maint_op (today : Z) (op : maint_op) (records : list Maintenance)
  : list Maintenance :=
  match op with
  | MAdd id sched => add_maintenance id sched records
  | MEdit id sched completed => edit_maintenance today id sched completed records
  | MComplete id => complete_maintenance today id records
  | MDelete id => delete_maintenance id records
  | MRead selected => maintenance_read today selected records
  end.

(** Tables reachable from the empty table by requests at non-decreasing
    dates. *)
Inductive maint_reachable : Z -> list Maintenance -> Prop :=
| maint_init (t : Z) : maint_reachable t []
| maint_step (t t' : Z) (records : list Maintenance) (op : maint_op) :
    maint_reachable t records -> t <= t' ->
    maint_reachable t' (apply_maint_op t' op records).

(** The status as a function of the dates. *)
Definition derived_status (today sched : Z) (completed : option Z) : mstatus :=
  match completed with
  | Some _ => Completed
  | None => if sched <? today then Overdue else Scheduled
  end.

(** Rows as every write path of app.py leaves them: each one ends in
    [recalc_single_row] (or [normalize_row_nonnegatives] for the seed). *)
Definition stored_ok (r : Consumable) : bool :=
  match items_out r, items_on_stock r, units_consumed r with
  | PyInt a, PyInt b, PyInt c => (0 <=? a) && (0 <=? b) && (0 <=? c)
  | _, _, _ => false
  end.

(** ** Further consumable routes *)

(** [consume_from_single_consumable], a second copy of the Policy B helper
    (not called by any route). *)
Definition consume_from_single_consumable (s : store) (consumable_id : Z) (quantity : py_value)
  : store * Z :=
  let remaining := _clamp_nonneg quantity in
  if remaining =? 0 then (s, 0)
  else match query_get s consumable_id with
       | None => (s, remaining)
       | Some c =>
           let out := _clamp_nonneg (items_out c) in
           if out <=? 0 then (s, remaining)
           else
             let take := Z.min out remaining in
             (store_update s consumable_id (fun c => set_items_out c (PyInt (out - take))),
              remaining - take)
       end.

(** The POST branch of the route [use_consumable] (form fields
    [consumable_id] and [quantity]); [None] is the 404 of [get_or_404]. *)
Definition use_consumable (d : db_state) (form_consumable_id form_quantity : py_value)
  (new_log : Z) : option db_state :=
  let quantity_used := _clamp_nonneg form_quantity in
  let consumable_id := _to_int form_consumable_id 0 in
  if quantity_used <=? 0 then Some d
  else match query_get (consumables d) consumable_id with
       | None => None
       | Some c =>
           let logs := usage_logs d
                       ++ [mkUsageLog new_log consumable_id (PyInt quantity_used) None] in
           let s1 := store_update (consumables d) consumable_id
                       (fun c => set_units_consumed c
                                   (PyInt (_to_int (units_consumed c) 0 + quantity_used))) in
           let s2 := fst (consume_by_id s1 consumable_id (PyInt quantity_used)) in
           let s3 := store_update s2 consumable_id recalc_single_row in
           Some (mkDb s3 logs)
       end.

(** One iteration of the loop of [bulk_use_consumables]: [cid] is the
    entry of [consumable_ids[]] ([None] for an empty selection, otherwise
    the id it denotes, for entries on which [Consumable.query.get] and
    [int()] agree), [qv] the matching entry of [quantities[]]; [next_log]
    is the id the next inserted [UsageLog] gets.  An entry the lookup
    matches but [int()] rejects (such as '5.0') raises and rolls the whole
    request back; that path is not part of this model. *)
Definition bulk_use_step (d : db_state) (cid : option Z) (qv : py_value) (next_log : Z)
  : db_state * Z :=
  match cid with
  | None => (d, next_log)
  | Some consumable_id =>
      let quantity_used := _clamp_nonneg qv in
      if 0 <? quantity_used then
        match query_get (consumables d) consumable_id with
        | None => (d, next_log)
        | Some c =>
            let logs := usage_logs d
                        ++ [mkUsageLog next_log consumable_id (PyInt quantity_used) None] in
            let s1 := store_update (consumables d) (c_id c)
                        (fun c => set_units_consumed c
                                    (PyInt (_to_int (units_consumed c) 0 + quantity_used))) in
            let s2 := fst (consume_by_id s1 consumable_id (PyInt quantity_used)) in
            let s3 := store_update s2 (c_id c) recalc_single_row in
            (mkDb s3 logs, next_log + 1)
        end
      else (d, next_log)
  end.

(** [bulk_use_consumables]: [quantities[i] if i < len(quantities) else 1]. *)
Fixpoint bulk_use_consumables (d : db_state) (ids : list (option Z)) (quantities : list py_value)
  (next_log : Z) : db_state * Z :=
  match ids with
  | [] => (d, next_log)
  | cid :: ids' =>
      let '(qv, qs') := match quantities with
                        | [] => (PyInt 1, [])
                        | q :: qs => (q, qs)
                        end in
      let '(d', next') := bulk_use_step d cid qv next_log in
      bulk_use_consumables d' ids' qs' next'
  end.

(** The form of [add_consumable] and [edit_consumable] (the fields the
    model keeps; [unit], [lot_number], [date_received] and [units_expired]
    are copied through unchanged and are not modelled). *)
Record ConsumableForm : Type := mkForm {
  f_balance_stock : py_value;
  f_description : string;
  f_is_returnable : option string;
  f_expiration : string;
  f_items_out : py_value;
  f_items_on_stock : py_value;
  f_previous_month_stock : py_value;
  f_units_consumed : py_value
}.

Definition row_of_form (id : Z) (form : ConsumableForm) : Consumable :=
  {| c_id := id;
     balance_stock := PyInt (_to_int (f_balance_stock form) 0);
     description := f_description form;
     expiration := Some (f_expiration form);
     items_out := PyInt (_to_int (f_items_out form) 0);
     items_on_stock := PyInt (_to_int (f_items_on_stock form) 0);
     previous_month_stock := PyInt (_to_int (f_previous_month_stock form) 0);
     units_consumed := PyInt (_to_int (f_units_consumed form) 0);
     is_returnable := match f_is_returnable form with
                      | Some v => String.eqb v "true"
                      | None => false
                      end |}.

(** [add_consumable]; [new_id] is the id the flush assigns. *)
Definition add_consumable (d : db_state) (new_id : Z) (form : ConsumableForm) : db_state :=
  let consumable := normalize_row_nonnegatives (row_of_form new_id form) in
  mkDb (consumables d ++ [recalc_single_row consumable]) (usage_logs d).

(** [edit_consumable]; [None] is the 404 of [get_or_404]. *)
Definition edit_consumable (d : db_state) (id : Z) (form : ConsumableForm) : option db_state :=
  match query_get (consumables d) id with
  | None => None
  | Some _ =>
      Some (mkDb (store_update (consumables d) id
                    (fun c => recalc_single_row
                                (normalize_row_nonnegatives (row_of_form (c_id c) form))))
                 (usage_logs d))
  end.

(** [delete_consumable]: the row and its usage logs go (its student notes
    too, which are not modelled). *)
Definition delete_consumable (d : db_state) (id : Z) : option db_state :=
  match query_get (consumables d) id with
  | None => None
  | Some c =>
      Some (mkDb (filter (fun r => negb (c_id r =? c_id c)) (consumables d))
                 (filter (fun l => negb (consumable_id l =? c_id c)) (usage_logs d)))
  end.

(** ** Equipment, borrow logs and student notes *)

Record Equipment : Type := mkEquipment {
  e_id : Z;
  qty : option Z;
  e_barcode : option string
}.

Record BorrowLog : Type := mkBorrowLog {
  b_id : Z;
  equipment_id : Z;
  quantity_borrowed : Z;
  b_returned_at : option Z
}.

(** The [in_use] column of the route [equipment]:
    [coalesce(sum(quantity_borrowed), 0)] over the open borrow logs of the
    item. *)
Fixpoint in_use (logs : list BorrowLog) (eq_id : Z) : Z :=
  match logs with
  | [] => 0
  | l :: ls =>
      (if (equipment_id l =? eq_id)
          && match b_returned_at l with None => true | Some _ => false end
       then quantity_borrowed l else 0) + in_use ls eq_id
  end.

(** The [on_stock] column: [coalesce(qty, 0) - in_use]. *)
Definition on_stock (logs : list BorrowLog) (e : Equipment) : Z :=
  match qty e with Some q => q | None => 0 end - in_use logs (e_id e).

Inductive route_result (A : Type) : Type :=
| RNotFound
| RServerError
| ROk (a : A).
Arguments RNotFound {A}.
Arguments RServerError {A}.
Arguments ROk {A} a.

(** [int(request.form.get('quantity_borrowed', 1))]: an absent field gives
    [int(1)]; [int()] strips surrounding whitespace itself. *)
Definition form_int (v : option string) : option Z :=
  match v with
  | None => Some 1
  | Some s => py_int (strip s)
  end.

(** The POST branch of [borrow_equipment_row]: no check against the
    quantity available; a [ValueError] from [int()] is a server error. *)
Definition borrow_equipment_row (eqs : list Equipment) (logs : list BorrowLog) (id : Z)
  (form_quantity : option string) (new_id : Z) : route_result (list BorrowLog) :=
  match find (fun e => e_id e =? id) eqs with
  | None => RNotFound
  | Some e =>
      match form_int form_quantity with
      | None => RServerError
      | Some q => ROk (logs ++ [mkBorrowLog new_id (e_id e) q None])
      end
  end.

(** The POST branch of [return_equipment]. *)
Definition return_equipment (logs : list BorrowLog) (borrow_id now : Z)
  : route_result (list BorrowLog) :=
  match find (fun l => b_id l =? borrow_id) logs with
  | None => RNotFound
  | Some log =>
      match b_returned_at log with
      | Some _ => ROk logs
      | None =>
          ROk (map (fun l => if b_id l =? borrow_id
                             then mkBorrowLog (b_id l) (equipment_id l) (quantity_borrowed l)
                                    (Some now)
                             else l) logs)
      end
  end.

(** [bulk_borrow_equipment]: one log per non-empty entry with a positive
    clamped quantity (default 1); the equipment id is not looked up. *)
Fixpoint bulk_borrow_equipment (logs : list BorrowLog) (ids : list (option Z))
  (quantities : list py_value) (next_id : Z) : list BorrowLog :=
  match ids with
  | [] => logs
  | cid :: ids' =>
      let '(qv, qs') := match quantities with
                        | [] => (PyInt 1, [])
                        | q :: qs => (q, qs)
                        end in
      match cid with
      | Some eid =>
          let quantity := _clamp_nonneg qv in
          if 0 <? quantity
          then bulk_borrow_equipment (logs ++ [mkBorrowLog next_id eid quantity None])
                 ids' qs' (next_id + 1)
          else bulk_borrow_equipment logs ids' qs' next_id
      | None => bulk_borrow_equipment logs ids' qs' next_id
      end
  end.

Record StudentNote : Type := mkNote {
  n_id : Z;
  n_status : string;
  resolved_at : option Z;
  resolved_by : option Z
}.

(** [toggle_note_status] on the note itself. *)
Definition toggle_note (now user_id : Z) (note : StudentNote) : StudentNote :=
  if String.eqb (n_status note) "pending"
  then mkNote (n_id note) "resolved" (Some now) (Some user_id)
  else mkNote (n_id note) "pending" None None.

(** ** Barcodes *)

Definition digit_char (d : Z) : ascii := ascii_of_nat (Z.to_nat d + 48).

(** Decimal digits of [n >= 0], prepended to [acc]. *)
Fixpoint dec_aux (fuel : nat) (n : Z) (acc : string) : string :=
  match fuel with
  | O => acc
  | S f => if n <? 10 then String (digit_char n) acc
           else dec_aux f (n / 10) (String (digit_char (n mod 10)) acc)
  end.

Definition dec (n : Z) : string := dec_aux (S (Z.to_nat n)) n "".

Fixpoint zeros (k : nat) : string :=
  match k with O => "" | S k' => String "0"%char (zeros k') end.

Definition zpad (width : nat) (s : string) : string :=
  zeros (width - String.length s) ++ s.

(** Python's [format(n, '04d')]: the sign counts in the width and the zeros
    go after it. *)
Definition format_04d (n : Z) : string :=
  if n <? 0 then "-" ++ zpad 3 (dec (- n)) else zpad 4 (dec n).

(** [generate_barcode_string]; [suffix] is [uuid.uuid4().hex[:4].upper()]. *)
Definition generate_barcode_string (prefix : string) (item_id : Z) (suffix : string) : string :=
  prefix ++ "-" ++ format_04d item_id ++ "-" ++ suffix.

(** [ensure_equipment_barcode]: the equipment after the call and the
    barcode returned. *)
Definition ensure_equipment_barcode (e : Equipment) (suffix : string) : Equipment * string :=
  match e_barcode e with
  | Some b => if String.eqb b "" then
                let b' := generate_barcode_string "EQ" (e_id e) suffix in
                (mkEquipment (e_id e) (qty e) (Some b'), b')
              else (e, b)
  | None => let b' := generate_barcode_string "EQ" (e_id e) suffix in
            (mkEquipment (e_id e) (qty e) (Some b'), b')
  end.

(** The total quantity a [bulk_borrow_equipment] form requests for the
    equipment [eid]: the clamped entries (default 1) whose id is [eid]. *)
Fixpoint bulk_requested (eid : Z) (ids : list (option Z)) (quantities : list py_value) : Z :=
  match ids with
  | [] => 0
  | cid :: ids' =>
      let '(qv, qs') := match quantities with
                        | [] => (PyInt 1, [])
                        | q :: qs => (q, qs)
                        end in
      (match cid with Some e => if e =? eid then _clamp_nonneg qv else 0 | None => 0 end)
      + bulk_requested eid ids' qs'
  end.

(** The result of [barcode_lookup] (the 401 for a missing session is left
    out): 400 for an empty code, the equipment or consumable found, or
    ['found': False]. *)
Inductive lookup_result : Type :=
| LNoCode
| LEquipment (e : Equipment)
| LConsumable (id : Z)
| LNotFound.

(** [barcode_lookup]; [cons] lists the consumables as (id, barcode) pairs
    and [.first()] takes the first match in table order. *)
Definition barcode_lookup (eqs : list Equipment) (cons : list (Z * option string))
  (code : string) : lookup_result :=
  let barcode_value := strip code in
  if String.eqb barcode_value "" then LNoCode
  else match find (fun e => match e_barcode e with
                            | Some b => String.eqb b barcode_value
                            | None => false
                            end) eqs with
       | Some e => LEquipment e
       | None =>
           match find (fun c => match snd c with
                                | Some b => String.eqb b barcode_value
                                | None => false
                                end) cons with
           | Some c => LConsumable (fst c)
           | None => LNotFound
           end
       end.

(** [format(n, '04d')] has four characters and [int()] reads [n] back. *)
Definition format_ok (n : Z) : bool :=
  (String.length (format_04d n) =? 4)%nat
  && match py_int (format_04d n) with Some m => m =? n | None => false end.

Fixpoint format_ok_from (lo : Z) (k : nat) : bool :=
  match k with
  | O => true
  | S k' => format_ok lo && format_ok_from (lo + 1) k'
  end.

(** ** Session invariants *)

(** Every stored row holds non-negative integers in its three counters. *)
Definition all_stored_ok (s : store) : Prop :=
  Forall (fun r => stored_ok r = true) s.

(** [s] differs from [s0] at most in the rows with id [i]. *)
Definition same_off (i : Z) (s0 s : store) : Prop :=
  Forall2 (fun a b => c_id a = c_id b /\ (c_id b <> i -> a = b)) s0 s.

(** A row used in the examples: five items out, five on stock. *)
Definition stock_row : Consumable :=
  mkConsumable 1 (PyInt 10) "Ethanol" (Some "2025-01-01"%string)
    (PyInt 5) (PyInt 5) (PyInt 10) (PyInt 0) false.

(** A returnable row used in the examples. *)
Definition sample_row : Consumable :=
  mkConsumable 1 (PyInt 15) "Beaker" None (PyInt 5) (PyInt 10) (PyInt 17) (PyInt 2) true.

(** ** Normalizer and row recalculation *)

Lemma to_int_PyInt (z d : Z) : _to_int (PyInt z) d = z.
Proof. reflexivity. Qed.

Lemma clamp_nonneg_max (v : py_value) : _clamp_nonneg v = Z.max 0 (_to_int v 0).
Proof. unfold _clamp_nonneg. destruct (Z.ltb_spec (_to_int v 0) 0); lia. Qed.

Lemma clamp_nonneg_ge0 (v : py_value) : 0 <= _clamp_nonneg v.
Proof. rewrite clamp_nonneg_max. lia. Qed.

Lemma clamp_PyInt_nonneg (z : Z) : 0 <= z -> _clamp_nonneg (PyInt z) = z.
Proof. intro H. rewrite clamp_nonneg_max, to_int_PyInt. lia. Qed.

(** The fields [recalc_row_level_values] writes, in terms of its input. *)
Lemma recalc_fields (r : Consumable) :
  let a := _clamp_nonneg (items_out r) in
  let b := _clamp_nonneg (items_on_stock r) in
  let c := _clamp_nonneg (units_consumed r) in
  items_out (recalc_row_level_values r) = PyInt a /\
  items_on_stock (recalc_row_level_values r) = PyInt b /\
  units_consumed (recalc_row_level_values r) = PyInt c /\
  balance_stock (recalc_row_level_values r) = PyInt (a + b) /\
  previous_month_stock (recalc_row_level_values r) = PyInt (a + b + c) /\
  c_id (recalc_row_level_values r) = c_id r /\
  description (recalc_row_level_values r) = description r /\
  expiration (recalc_row_level_values r) = expiration r /\
  is_returnable (recalc_row_level_values r) = is_returnable r.
Proof.
  intros a b c. unfold recalc_row_level_values, normalize_row_nonnegatives; cbn.
  cbn [_to_int].
  pose proof (clamp_nonneg_ge0 (items_out r)).
  pose proof (clamp_nonneg_ge0 (items_on_stock r)).
  pose proof (clamp_nonneg_ge0 (units_consumed r)).
  rewrite !clamp_PyInt_nonneg by (subst a b c; lia).
  repeat split.
Qed.

Lemma recalc_stored_ok (r : Consumable) : stored_ok (recalc_row_level_values r) = true.
Proof.
  destruct (recalc_fields r) as (Ha & Hb & Hc & _).
  unfold stored_ok. rewrite Ha, Hb, Hc.
  pose proof (clamp_nonneg_ge0 (items_out r)).
  pose proof (clamp_nonneg_ge0 (items_on_stock r)).
  pose proof (clamp_nonneg_ge0 (units_consumed r)).
  repeat rewrite (proj2 (Z.leb_le _ _)) by assumption. reflexivity.
Qed.

(** C1. After [recalc_row_level_values] the three stock counters are
    non-negative integers, [balance_stock = items_out + items_on_stock] and
    [previous_month_stock = items_out + items_on_stock + units_consumed]. *)
Theorem recalc_invariant (row : Consumable) :
  exists a b c : Z,
    items_out (recalc_row_level_values row) = PyInt a /\
    items_on_stock (recalc_row_level_values row) = PyInt b /\
    units_consumed (recalc_row_level_values row) = PyInt c /\
    0 <= a /\ 0 <= b /\ 0 <= c /\
    balance_stock (recalc_row_level_values row) = PyInt (a + b) /\
    previous_month_stock (recalc_row_level_values row) = PyInt (a + b + c).
Proof.
  destruct (recalc_fields row) as (Ha & Hb & Hc & Hbal & Hprev & _).
  exists (_clamp_nonneg (items_out row)), (_clamp_nonneg (items_on_stock row)),
         (_clamp_nonneg (units_consumed row)).
  repeat split; auto using clamp_nonneg_ge0.
Qed.

(** [recalc_row_level_values] as a record. *)
Lemma recalc_eq (r : Consumable) :
  recalc_row_level_values r =
  {| c_id := c_id r;
     balance_stock := PyInt (_clamp_nonneg (items_out r) + _clamp_nonneg (items_on_stock r));
     description := description r; expiration := expiration r;
     items_out := PyInt (_clamp_nonneg (items_out r));
     items_on_stock := PyInt (_clamp_nonneg (items_on_stock r));
     previous_month_stock := PyInt (_clamp_nonneg (items_out r)
                                    + _clamp_nonneg (items_on_stock r)
                                    + _clamp_nonneg (units_consumed r));
     units_consumed := PyInt (_clamp_nonneg (units_consumed r));
     is_returnable := is_returnable r |}.
Proof.
  destruct (recalc_fields r) as (Ha & Hb & Hc & Hbal & Hprev & Hid & Hd & He & Hr).
  destruct (recalc_row_level_values r); cbn in *. subst. reflexivity.
Qed.

(** C9. [recalc_row_level_values] is idempotent. *)
Theorem recalc_idempotent (row : Consumable) :
  recalc_row_level_values (recalc_row_level_values row) = recalc_row_level_values row.
Proof.
  rewrite (recalc_eq (recalc_row_level_values row)), (recalc_eq row). cbn.
  pose proof (clamp_nonneg_ge0 (items_out row)).
  pose proof (clamp_nonneg_ge0 (items_on_stock row)).
  pose proof (clamp_nonneg_ge0 (units_consumed row)).
  rewrite !clamp_PyInt_nonneg by assumption. reflexivity.
Qed.

(** C10. After [recalc_row_level_values],
    [previous_month_stock = balance_stock + units_consumed] and
    [balance_stock <= previous_month_stock]: the outer clamps of the two sums
    leave them unchanged. *)
Theorem recalc_prev_is_balance_plus_consumed (row : Consumable) :
  exists bal uc prev : Z,
    balance_stock (recalc_row_level_values row) = PyInt bal /\
    units_consumed (recalc_row_level_values row) = PyInt uc /\
    previous_month_stock (recalc_row_level_values row) = PyInt prev /\
    prev = bal + uc /\ bal <= prev /\
    bal = _clamp_nonneg (items_out row) + _clamp_nonneg (items_on_stock row) /\
    prev = _clamp_nonneg (items_out row) + _clamp_nonneg (items_on_stock row)
           + _clamp_nonneg (units_consumed row).
Proof.
  destruct (recalc_fields row) as (_ & _ & Hc & Hbal & Hprev & _).
  pose proof (clamp_nonneg_ge0 (units_consumed row)).
  eexists _, _, _. split; [exact Hbal|]. split; [exact Hc|]. split; [exact Hprev|].
  repeat split; lia.
Qed.

(** C8. [_to_int] is total (its result is an integer for every input) and
    falls back to [default] on [None], on an empty or "N/A" string and on
    any text [int()] rejects or an object whose [str] raises;
    [_clamp_nonneg v = max 0 (_to_int v 0)], which is never negative. *)
Theorem to_int_total_and_clamp :
  (forall d : Z, _to_int PyNone d = d) /\
  (forall z d : Z, _to_int (PyInt z) d = z) /\
  (forall d : Z, _to_int (PyStr "") d = d /\ _to_int (PyStr "N/A") d = d) /\
  (forall d : Z, _to_int (PyOther None) d = d) /\
  (forall (s : string) (d : Z), py_int (strip s) = None ->
     _to_int (PyStr s) d = d /\ _to_int (PyOther (Some s)) d = d) /\
  (forall (s : string) (d z : Z), strip s <> ""%string -> upper (strip s) <> "N/A"%string ->
     py_int (strip s) = Some z -> _to_int (PyStr s) d = z) /\
  (forall v : py_value, _clamp_nonneg v = Z.max 0 (_to_int v 0) /\ 0 <= _clamp_nonneg v).
Proof.
  split; [reflexivity|]. split; [reflexivity|]. split; [split; reflexivity|].
  split; [reflexivity|].
  split.
  - intros s d H. cbn. unfold to_int_of_str. rewrite H.
    destruct (String.eqb (strip s) "" || String.eqb (upper (strip s)) "N/A"); auto.
  - split.
    + intros s d z H1 H2 H3. cbn. unfold to_int_of_str.
      apply String.eqb_neq in H1, H2. rewrite H1, H2, H3. reflexivity.
    + intro v. split; [apply clamp_nonneg_max | apply clamp_nonneg_ge0].
Qed.

Lemma to_int_total_and_clamp_witness :
  py_int (strip "12abc"%string) = None /\ _to_int (PyStr "12abc"%string) 5 = 5 /\
  _to_int (PyStr " -42 "%string) 5 = -42.
Proof.
  split; [reflexivity|]. split.
  - exact (proj1 (proj1 (proj2 (proj2 (proj2 (proj2 to_int_total_and_clamp)))) "12abc"%string 5
                   eq_refl)).
  - apply (proj1 (proj2 (proj2 (proj2 (proj2 (proj2 to_int_total_and_clamp)))))
             " -42 "%string 5 (-42)); [discriminate | discriminate | reflexivity].
Defined.

(** ** Session lookups *)

Lemma query_get_id (s : store) (i : Z) (c : Consumable) :
  query_get s i = Some c -> c_id c = i.
Proof.
  induction s as [|r s IH]; cbn; [discriminate|].
  destruct (Z.eqb_spec (c_id r) i); [intros [= <-]; assumption | exact IH].
Qed.

Lemma query_get_update (s : store) (i : Z) (f : Consumable -> Consumable) :
  (forall c, c_id (f c) = c_id c) ->
  query_get (store_update s i f) i = option_map f (query_get s i).
Proof.
  intro Hf. induction s as [|r s IH]; cbn; [reflexivity|].
  destruct (Z.eqb_spec (c_id r) i) as [E|E].
  - rewrite Hf, (proj2 (Z.eqb_eq _ _) E). reflexivity.
  - apply Z.eqb_neq in E. rewrite E. exact IH.
Qed.

Lemma set_items_out_same (c : Consumable) : set_items_out c (items_out c) = c.
Proof. destruct c; reflexivity. Qed.

Lemma consume_by_id_spec (s : store) (i : Z) (c : Consumable) (a : Z) (quantity : py_value) :
  query_get s i = Some c -> items_out c = PyInt a -> 0 <= a ->
  snd (consume_by_id s i quantity) = _clamp_nonneg quantity - Z.min (_clamp_nonneg quantity) a /\
  query_get (fst (consume_by_id s i quantity)) i =
    Some (set_items_out c (PyInt (a - Z.min (_clamp_nonneg quantity) a))).
Proof.
  intros Hget Hout Ha. pose proof (clamp_nonneg_ge0 quantity) as Hq.
  unfold consume_by_id.
  destruct (Z.eqb_spec (_clamp_nonneg quantity) 0) as [Hz|Hz].
  - rewrite Hz, (Z.min_l 0 a Ha). cbn [Z.eqb fst snd]. replace (a - 0) with a by lia.
    rewrite <- Hout, set_items_out_same. split; [reflexivity | exact Hget].
  - rewrite Hget, Hout, clamp_PyInt_nonneg by exact Ha.
    destruct (Z.leb_spec a 0) as [Ha0|Ha0].
    + assert (a = 0) by lia. subst a. cbn [Z.leb fst snd].
      rewrite Z.min_r by lia. change (0 - 0) with 0.
      rewrite Hget, <- Hout, set_items_out_same.
      split; [lia | reflexivity].
    + cbn [fst snd]. rewrite query_get_update by reflexivity. rewrite Hget. cbn.
      rewrite Z.min_comm. split; reflexivity.
Qed.

(** C2. Policy B: for a stored row, [consume_by_id] called with the clamped
    request [q] returns [q - min q items_out], and the route
    [use_consumable_row] leaves [items_out] lowered by [min q items_out]
    and [units_consumed] raised by the whole [q]. *)
Theorem use_consumable_policy_b (d : db_state) (id new_log : Z) (form_quantity : py_value)
  (c : Consumable) (a uc : Z) :
  query_get (consumables d) id = Some c ->
  items_out c = PyInt a -> units_consumed c = PyInt uc -> 0 <= a -> 0 <= uc ->
  let q := _clamp_nonneg form_quantity in
  snd (consume_by_id (consumables d) id (PyInt q)) = q - Z.min q a /\
  exists d' c',
    use_consumable_row d id new_log form_quantity = Some d' /\
    query_get (consumables d') id = Some c' /\
    items_out c' = PyInt (a - Z.min q a) /\
    units_consumed c' = PyInt (uc + q).
Proof.
  intros Hget Hout Huc Ha Huc0 q.
  pose proof (clamp_nonneg_ge0 form_quantity) as Hq. fold q in Hq.
  split.
  - destruct (consume_by_id_spec _ _ _ _ (PyInt q) Hget Hout Ha) as [H _].
    rewrite H, clamp_PyInt_nonneg by exact Hq. reflexivity.
  - unfold use_consumable_row. rewrite Hget. fold q.
    rewrite (query_get_id _ _ _ Hget).
    destruct (Z.ltb_spec 0 q) as [Hpos|Hpos].
    + set (s1 := store_update (consumables d) id _).
      set (c1 := set_units_consumed c (PyInt (_to_int (units_consumed c) 0 + q))).
      assert (H1 : query_get s1 id = Some c1)
        by (unfold s1; rewrite query_get_update by reflexivity; rewrite Hget; reflexivity).
      assert (Hout1 : items_out c1 = PyInt a) by exact Hout.
      destruct (consume_by_id_spec _ _ _ _ (PyInt q) H1 Hout1 Ha) as [_ H2].
      rewrite clamp_PyInt_nonneg in H2 by exact Hq.
      eexists _, _. split; [reflexivity|]. cbn [consumables].
      rewrite query_get_update by (intro; apply (proj1 (proj2 (proj2 (proj2 (proj2
                                   (proj2 (recalc_fields _)))))))).
      rewrite H2. cbn [option_map]. unfold recalc_single_row. split; [reflexivity|].
      destruct (recalc_fields (set_items_out c1 (PyInt (a - Z.min q a))))
        as (Ho & _ & Hu & _). rewrite Ho, Hu.
      unfold c1. cbn [items_out units_consumed set_items_out set_units_consumed]. rewrite Huc.
      cbn [_to_int].
      rewrite !clamp_PyInt_nonneg by lia. split; reflexivity.
    + assert (q = 0) by lia. exists d, c.
      split; [reflexivity|]. split; [exact Hget|].
      rewrite H, Z.min_l, Z.sub_0_r, Z.add_0_r by lia. split; assumption.
Qed.

Lemma use_consumable_policy_b_witness :
  let d := mkDb [mkConsumable 1 (PyInt 9) "Ethanol" (Some "2025-01-01"%string)
                   (PyInt 4) (PyInt 5) (PyInt 11) (PyInt 2) false] [] in
  query_get (consumables d) 1 = Some (mkConsumable 1 (PyInt 9) "Ethanol" (Some "2025-01-01"%string)
                   (PyInt 4) (PyInt 5) (PyInt 11) (PyInt 2) false) /\
  (snd (consume_by_id (consumables d) 1 (PyInt (_clamp_nonneg (PyStr "7")))) =
     _clamp_nonneg (PyStr "7") - Z.min (_clamp_nonneg (PyStr "7")) 4 /\
   exists d' c',
     use_consumable_row d 1 10 (PyStr "7") = Some d' /\
     query_get (consumables d') 1 = Some c' /\
     items_out c' = PyInt (4 - Z.min (_clamp_nonneg (PyStr "7")) 4) /\
     units_consumed c' = PyInt (2 + _clamp_nonneg (PyStr "7"))).
Proof.
  intro d. split; [reflexivity|].
  exact (use_consumable_policy_b d 1 10 (PyStr "7") _ 4 2 eq_refl eq_refl eq_refl
           ltac:(lia) ltac:(lia)).
Defined.

(** ** Returns *)

(** C7. [return_consumable] enforces no bound against [quantity_used]: on
    a returnable row of a log entry not yet returned, any clamped quantity
    [q > 0] is credited to [items_out] in full. *)
Theorem return_credits_full_quantity (d : db_state) (usage_id now : Z)
  (form_quantity : py_value) (log : UsageLog) (c : Consumable) (a : Z) :
  log_get (usage_logs d) usage_id = Some log ->
  returned_at log = None ->
  query_get (consumables d) (consumable_id log) = Some c ->
  is_returnable c = true ->
  items_out c = PyInt a -> 0 <= a ->
  0 < _clamp_nonneg form_quantity ->
  exists d' c',
    return_consumable d usage_id now form_quantity
      = Some (d', Some (_clamp_nonneg form_quantity)) /\
    query_get (consumables d') (consumable_id log) = Some c' /\
    items_out c' = PyInt (a + _clamp_nonneg form_quantity).
Proof.
  intros Hlog Hret Hget Hr Hout Ha Hq.
  unfold return_consumable. rewrite Hlog, Hget, Hr, Hret. cbn [negb].
  rewrite (proj2 (Z.ltb_lt _ _) Hq).
  eexists _, _. split; [reflexivity|]. cbn [consumables].
  rewrite !query_get_update
    by (intros; try reflexivity;
        exact (proj1 (proj2 (proj2 (proj2 (proj2 (proj2 (recalc_fields _))))))));
  rewrite Hget. cbn [option_map]. unfold recalc_single_row. split; [reflexivity|].
  destruct (recalc_fields (set_items_out c (PyInt (_to_int (items_out c) 0
                                                   + _clamp_nonneg form_quantity))))
    as (Ho & _).
  rewrite Ho. cbn [items_out set_items_out]. rewrite Hout. cbn [_to_int].
  rewrite clamp_PyInt_nonneg by lia. reflexivity.
Qed.

Lemma return_credits_full_quantity_witness :
  let d := mkDb [mkConsumable 1 (PyInt 14) "Buffer solution" None
                   (PyInt 4) (PyInt 10) (PyInt 17) (PyInt 3) true]
                [mkUsageLog 7 1 (PyInt 2) None] in
  exists d' c',
    return_consumable d 7 100 (PyStr "5") = Some (d', Some (_clamp_nonneg (PyStr "5"))) /\
    query_get (consumables d') 1 = Some c' /\
    items_out c' = PyInt (4 + _clamp_nonneg (PyStr "5")).
Proof.
  intro d.
  exact (return_credits_full_quantity d 7 100 (PyStr "5") (mkUsageLog 7 1 (PyInt 2) None)
           (mkConsumable 1 (PyInt 14) "Buffer solution" None
              (PyInt 4) (PyInt 10) (PyInt 17) (PyInt 3) true) 4
           eq_refl eq_refl eq_refl eq_refl eq_refl ltac:(lia) ltac:(vm_compute; reflexivity)).
Defined.

Definition ret_row : Consumable :=
  mkConsumable 1 (PyInt 14) "Buffer solution" (Some "2026-03-01"%string)
    (PyInt 4) (PyInt 10) (PyInt 17) (PyInt 3) true.

Definition ret_db : db_state := mkDb [ret_row] [mkUsageLog 7 1 (PyInt 3) None].

(** The state after returning 2 units of log entry 7 at time 100. *)
Definition ret_db_after : db_state :=
  mkDb [mkConsumable 1 (PyInt 16) "Buffer solution" (Some "2026-03-01"%string)
          (PyInt 6) (PyInt 10) (PyInt 19) (PyInt 3) true]
       [mkUsageLog 7 1 (PyInt 3) (Some 100)].

(** C3. Returning 2 of the 3 units used: [items_out] rises by 2 and
    [returned_at] is set, a second return is a no-op; the 2 assigned to
    [log.quantity_returned] is only carried by the Python object (second
    component), the stored log entry has no field holding it. *)
Theorem return_consumable_quantity_not_stored :
  return_consumable ret_db 7 100 (PyStr "2") = Some (ret_db_after, Some 2) /\
  return_consumable ret_db_after 7 200 (PyStr "2") = Some (ret_db_after, None) /\
  log_get (usage_logs ret_db_after) 7 = Some (mkUsageLog 7 1 (PyInt 3) (Some 100)).
Proof. split; [|split]; vm_compute; reflexivity. Qed.

(** ** The expiration key *)

(** "N/A" and the empty expiration do not get equal sort keys. *)
Lemma expiration_key_unknowns_differ :
  _expiration_sort_key (Some "N/A"%string) <> _expiration_sort_key (Some ""%string).
Proof. vm_compute. discriminate. Qed.

(** C5 (as the code has it). Keys compare as follows: a value whose
    stripped text has 10 characters and two '-' comes before every other
    value; within each of the two classes values are ordered by their
    stripped text; two keys are equal exactly when the stripped texts are. *)
Theorem expiration_key_order (e1 e2 : option string) :
  let s1 := strip (match e1 with Some e => e | None => ""%string end) in
  let s2 := strip (match e2 with Some e => e | None => ""%string end) in
  let iso1 := ((String.length s1 =? 10) && (count_char "-"%char s1 =? 2))%nat in
  let iso2 := ((String.length s2 =? 10) && (count_char "-"%char s2 =? 2))%nat in
  key_compare (_expiration_sort_key e1) (_expiration_sort_key e2) =
    (if iso1 then (if iso2 then String.compare s1 s2 else Lt)
     else (if iso2 then Gt else String.compare s1 s2)) /\
  (_expiration_sort_key e1 = _expiration_sort_key e2 <-> s1 = s2).
Proof.
  intros s1 s2 iso1 iso2. unfold _expiration_sort_key. fold s1 s2. fold iso1 iso2.
  split.
  - destruct iso1, iso2; reflexivity.
  - split.
    + destruct iso1, iso2; intros [=]; assumption.
    + intros E. subst iso1 iso2. rewrite E. reflexivity.
Qed.

(** ** Maintenance status *)

(** What every write leaves in a record: 'completed' exactly when a
    completion date is stored, and 'overdue' only for a date already past. *)
Definition record_inv (now : Z) (r : Maintenance) : Prop :=
  (status r = Completed <-> completed_date r <> None) /\
  (status r = Overdue -> scheduled_date r < now).

Definition maint_inv (now : Z) (records : list Maintenance) : Prop :=
  Forall (record_inv now) records.

Lemma record_inv_mono (t t' : Z) (r : Maintenance) :
  t <= t' -> record_inv t r -> record_inv t' r.
Proof. intros Ht [H1 H2]. split; [exact H1 | intro H; specialize (H2 H); lia]. Qed.

Lemma overdue_update_inv (today : Z) (r : Maintenance) :
  record_inv today r -> record_inv today (overdue_update today r).
Proof.
  intros Hr. unfold overdue_update.
  destruct (mstatus_eqb (status r) Scheduled && (scheduled_date r <? today)) eqn:E;
    [|exact Hr].
  apply andb_prop in E as [E1 E2]. apply Z.ltb_lt in E2.
  destruct Hr as [H1 H2]. split; cbn.
  - split; [discriminate|]. intro Hc. apply H1 in Hc. rewrite Hc in E1. discriminate.
  - intros _. exact E2.
Qed.

Lemma edit_record_inv (today sched : Z) (completed : option Z) (r : Maintenance) :
  record_inv today (edit_record today sched completed r).
Proof.
  destruct completed as [cd|]; cbn.
  - split; [split; [discriminate | reflexivity] | discriminate].
  - destruct (Z.ltb_spec sched today) as [Hlt|Hge]; split; cbn.
    + split; [discriminate | intro H; contradiction H; reflexivity].
    + intros _. exact Hlt.
    + split; [discriminate | intro H; contradiction H; reflexivity].
    + discriminate.
Qed.

Lemma apply_maint_op_inv (t : Z) (op : maint_op) (records : list Maintenance) :
  maint_inv t records -> maint_inv t (apply_maint_op t op records).
Proof.
  unfold maint_inv. intro H. destruct op as [id sched|id sched completed|id|id|selected]; cbn.
  - apply Forall_app. split; [exact H|]. constructor; [|constructor].
    split; [split; [discriminate | intro Hc; contradiction Hc; reflexivity] | discriminate].
  - apply Forall_map. eapply Forall_impl; [|exact H]. intros r Hr.
    destruct (m_id r =? id); [apply edit_record_inv | exact Hr].
  - apply Forall_map. eapply Forall_impl; [|exact H]. intros r Hr.
    destruct (m_id r =? id); [|exact Hr].
    split; [split; [discriminate | reflexivity] | discriminate].
  - rewrite Forall_forall in H |- *. intros r Hin.
    apply filter_In in Hin as [Hin _]. exact (H r Hin).
  - apply Forall_map. eapply Forall_impl; [|exact H]. intros r Hr.
    destruct (selected r); [apply overdue_update_inv, Hr | exact Hr].
Qed.

Lemma maint_reachable_inv (t : Z) (records : list Maintenance) :
  maint_reachable t records -> maint_inv t records.
Proof.
  induction 1 as [t|t t' records op Hr IH Ht].
  - constructor.
  - apply apply_maint_op_inv. eapply Forall_impl; [|exact IH].
    intros r. apply record_inv_mono. exact Ht.
Qed.

(** C6. A read turns a 'scheduled' record without completion date whose
    date is past into 'overdue'; an edit sets the status from the edited
    dates ('completed' when a completion date is given, else 'overdue' or
    'scheduled' by the scheduled date); and on every table reachable by the
    routes, a record a read selects ends with the status that is the
    function of its dates and [today]. *)
Theorem maintenance_status_derived :
  (forall (today : Z) (r : Maintenance),
     status r = Scheduled -> completed_date r = None -> scheduled_date r < today ->
     status (overdue_update today r) = Overdue) /\
  (forall (today sched cd : Z) (r : Maintenance),
     status (edit_record today sched (Some cd) r) = Completed) /\
  (forall (today sched : Z) (r : Maintenance),
     status (edit_record today sched None r) = if sched <? today then Overdue else Scheduled) /\
  (forall (today id sched : Z) (completed : option Z) (records : list Maintenance)
          (r : Maintenance),
     In r (edit_maintenance today id sched completed records) -> m_id r = id ->
     status r = derived_status today (scheduled_date r) (completed_date r)) /\
  (forall (t today : Z) (selected : Maintenance -> bool) (records : list Maintenance)
          (r : Maintenance),
     maint_reachable t records -> t <= today -> In r records -> selected r = true ->
     In (overdue_update today r) (maintenance_read today selected records) /\
     status (overdue_update today r)
       = derived_status today (scheduled_date (overdue_update today r))
                              (completed_date (overdue_update today r))).
Proof.
  split.
  { intros today r Hs Hc Hlt. unfold overdue_update. rewrite Hs.
    rewrite (proj2 (Z.ltb_lt _ _) Hlt). reflexivity. }
  split; [reflexivity|].
  split; [reflexivity|].
  split.
  { intros today id sched completed records r Hin Hid.
    unfold edit_maintenance in Hin. apply in_map_iff in Hin as (r0 & <- & _).
    destruct (Z.eqb_spec (m_id r0) id) as [_|Hne].
    - destruct completed; reflexivity.
    - exfalso. exact (Hne Hid). }
  intros t today selected records r Hreach Ht Hin Hsel.
  split.
  { apply in_map_iff. exists r. rewrite Hsel. split; [reflexivity | exact Hin]. }
  pose proof (maint_reachable_inv t records Hreach) as Hinv.
  unfold maint_inv in Hinv. rewrite Forall_forall in Hinv.
  destruct (record_inv_mono t today r Ht (Hinv r Hin)) as [H1 H2].
  unfold overdue_update, derived_status.
  destruct (status r) eqn:Es; cbn [mstatus_eqb andb].
  - assert (Hc : completed_date r = None).
    { destruct (completed_date r) eqn:E; [|reflexivity].
      exfalso. assert (Scheduled = Completed) by (apply H1; discriminate).
      discriminate. }
    destruct (Z.ltb_spec (scheduled_date r) today); cbn; rewrite Hc;
      [rewrite (proj2 (Z.ltb_lt _ _)) by assumption
      | rewrite (proj2 (Z.ltb_ge _ _)) by assumption]; congruence.
  - destruct (completed_date r) eqn:E; [exact Es|].
    exfalso. apply (proj1 H1); reflexivity.
  - assert (Hc : completed_date r = None).
    { destruct (completed_date r) eqn:E; [|reflexivity].
      exfalso. assert (Overdue = Completed) by (apply H1; discriminate).
      discriminate. }
    rewrite Hc, (proj2 (Z.ltb_lt _ _)) by (apply H2; reflexivity). exact Es.
Qed.

Definition maint_rec0 : Maintenance := mkMaint 1 99 None Scheduled.

Lemma maintenance_status_derived_witness :
  status (overdue_update 100 maint_rec0) = Overdue /\
  (In (overdue_update 100 maint_rec0)
      (maintenance_read 100 (fun _ => true) (apply_maint_op 99 (MAdd 1 99) [])) /\
   status (overdue_update 100 maint_rec0)
     = derived_status 100 (scheduled_date (overdue_update 100 maint_rec0))
                          (completed_date (overdue_update 100 maint_rec0))) /\
  status (edit_record 100 99 (Some 100) (overdue_update 100 maint_rec0))
    = derived_status 100 (scheduled_date (edit_record 100 99 (Some 100) (overdue_update 100 maint_rec0)))
                         (completed_date (edit_record 100 99 (Some 100) (overdue_update 100 maint_rec0))).
Proof.
  destruct maintenance_status_derived as (Hread & _ & _ & Hedit & Hreach).
  split; [apply Hread; [reflexivity | reflexivity | cbn; lia]|].
  split.
  - apply (Hreach 99 100 (fun _ => true) (apply_maint_op 99 (MAdd 1 99) []) maint_rec0).
    + apply maint_step with (t := 99); [apply maint_init | lia].
    + lia.
    + left. reflexivity.
    + reflexivity.
  - apply (Hedit 100 1 99 (Some 100) [overdue_update 100 maint_rec0]).
    + left. reflexivity.
    + reflexivity.
Defined.

(** ** Further consumable routes: properties *)

Lemma consume_by_id_writes (s : store) (i : Z) (quantity : py_value) :
  fst (consume_by_id s i quantity) = s \/
  exists v, fst (consume_by_id s i quantity) = store_update s i (fun c => set_items_out c v).
Proof.
  unfold consume_by_id.
  destruct (_clamp_nonneg quantity =? 0); [left; reflexivity|].
  destruct (query_get s i) as [c|]; [|left; reflexivity].
  destruct (_clamp_nonneg (items_out c) <=? 0); [left; reflexivity|].
  right. eexists. reflexivity.
Qed.

Lemma recalc_normalize_eq (row : Consumable) :
  recalc_single_row (normalize_row_nonnegatives row) = recalc_single_row row.
Proof.
  unfold recalc_single_row. rewrite !recalc_eq. cbn.
  pose proof (clamp_nonneg_ge0 (items_out row)).
  pose proof (clamp_nonneg_ge0 (items_on_stock row)).
  pose proof (clamp_nonneg_ge0 (units_consumed row)).
  rewrite !clamp_PyInt_nonneg by assumption. reflexivity.
Qed.

(** [consume_by_id] on a zero (or negative, or unparseable) request returns
    0 and writes nothing; on a missing id it returns the whole clamped
    request and writes nothing; the remainder always lies between 0 and the
    clamped request; and the only write it ever makes is [items_out] of the
    row with that id. *)
Theorem consume_by_id_edges (s : store) (i : Z) (quantity : py_value) :
  (_clamp_nonneg quantity = 0 -> consume_by_id s i quantity = (s, 0)) /\
  (query_get s i = None -> consume_by_id s i quantity = (s, _clamp_nonneg quantity)) /\
  0 <= snd (consume_by_id s i quantity) <= _clamp_nonneg quantity /\
  (fst (consume_by_id s i quantity) = s \/
   exists v, fst (consume_by_id s i quantity) = store_update s i (fun c => set_items_out c v)).
Proof.
  pose proof (clamp_nonneg_ge0 quantity) as Hq.
  unfold consume_by_id.
  split; [intros Hz; rewrite Hz; reflexivity|].
  split.
  { intros Hn. destruct (_clamp_nonneg quantity =? 0) eqn:E.
    - apply Z.eqb_eq in E. rewrite E. reflexivity.
    - rewrite Hn. reflexivity. }
  split; [|apply consume_by_id_writes].
  destruct (_clamp_nonneg quantity =? 0) eqn:E; [cbn; lia|].
  destruct (query_get s i) as [c|]; [|cbn; lia].
  pose proof (clamp_nonneg_ge0 (items_out c)) as Ho.
  destruct (_clamp_nonneg (items_out c) <=? 0) eqn:Eo; [cbn; lia|].
  apply Z.leb_gt in Eo. cbn [fst snd]. lia.
Qed.

Lemma consume_by_id_edges_witness :
  consume_by_id [stock_row] 1 (PyStr "N/A") = ([stock_row], 0) /\
  consume_by_id [stock_row] 2 (PyInt 4) = ([stock_row], _clamp_nonneg (PyInt 4)).
Proof.
  split.
  - apply (proj1 (consume_by_id_edges [stock_row] 1 (PyStr "N/A"))). reflexivity.
  - apply (proj1 (proj2 (consume_by_id_edges [stock_row] 2 (PyInt 4)))). reflexivity.
Defined.

(** The route [use_consumable] (id taken from the form) does for a positive
    quantity exactly what [use_consumable_row] does for that id; for a
    quantity that clamps to 0 it changes nothing and, unlike
    [use_consumable_row], answers no 404 for a missing id. *)
Theorem use_consumable_as_row (d : db_state) (form_id form_quantity : py_value) (new_log : Z) :
  (0 < _clamp_nonneg form_quantity ->
   use_consumable d form_id form_quantity new_log
   = use_consumable_row d (_to_int form_id 0) new_log form_quantity) /\
  (_clamp_nonneg form_quantity = 0 -> use_consumable d form_id form_quantity new_log = Some d).
Proof.
  split.
  - intros Hq. unfold use_consumable, use_consumable_row.
    rewrite (proj2 (Z.leb_gt _ _) Hq), (proj2 (Z.ltb_lt _ _) Hq).
    destruct (query_get (consumables d) (_to_int form_id 0)) as [c|] eqn:Hg; [|reflexivity].
    rewrite (query_get_id _ _ _ Hg). reflexivity.
  - intros Hz. unfold use_consumable. rewrite Hz. reflexivity.
Qed.

Lemma use_consumable_as_row_witness :
  use_consumable (mkDb [] []) (PyStr "99") (PyStr "0") 1 = Some (mkDb [] []) /\
  use_consumable_row (mkDb [] []) 99 1 (PyStr "0") = None.
Proof.
  split; [apply (proj2 (use_consumable_as_row (mkDb [] []) (PyStr "99") (PyStr "0") 1));
          reflexivity | reflexivity].
Defined.

(** The explicit [normalize_row_nonnegatives] before
    [recalc_single_row] in [add_consumable] and [edit_consumable] changes
    nothing: recalculation normalises first itself. *)
Theorem recalc_after_normalize (row : Consumable) :
  recalc_single_row (normalize_row_nonnegatives row) = recalc_single_row row.
Proof. apply recalc_normalize_eq. Qed.

(** [edit_consumable] ignores the submitted [balance_stock] and
    [previous_month_stock]: two forms that differ only there give the same
    result, and the edited row holds the recalculated values. *)
Theorem edit_consumable_ignores_derived_inputs (d : db_state) (id : Z) (form : ConsumableForm)
  (bal prev : py_value) :
  edit_consumable d id form
  = edit_consumable d id
      (mkForm bal (f_description form) (f_is_returnable form) (f_expiration form)
              (f_items_out form) (f_items_on_stock form) prev (f_units_consumed form)) /\
  forall c0, query_get (consumables d) id = Some c0 ->
  exists d' c, edit_consumable d id form = Some d' /\ query_get (consumables d') id = Some c /\
    balance_stock c = PyInt (_clamp_nonneg (f_items_out form) + _clamp_nonneg (f_items_on_stock form)) /\
    previous_month_stock c = PyInt (_clamp_nonneg (f_items_out form)
                                    + _clamp_nonneg (f_items_on_stock form)
                                    + _clamp_nonneg (f_units_consumed form)).
Proof.
  assert (Hclamp : forall v, _clamp_nonneg (PyInt (_to_int v 0)) = _clamp_nonneg v)
    by (intro v; rewrite !clamp_nonneg_max; reflexivity).
  split.
  - unfold edit_consumable. destruct (query_get (consumables d) id); [|reflexivity].
    reflexivity.
  - intros c0 Hg. unfold edit_consumable. rewrite Hg.
    assert (Hid : c_id c0 = id) by exact (query_get_id _ _ _ Hg).
    eexists. exists (recalc_single_row (normalize_row_nonnegatives (row_of_form (c_id c0) form))).
    split; [reflexivity|]. split.
    + cbn [consumables]. rewrite query_get_update
        by (intro; unfold recalc_single_row; rewrite recalc_eq; reflexivity).
      rewrite Hg. reflexivity.
    + rewrite recalc_normalize_eq. unfold recalc_single_row. rewrite recalc_eq. cbn.
      rewrite !Hclamp. split; reflexivity.
Qed.

Lemma edit_consumable_ignores_derived_inputs_witness :
  exists d' c,
  edit_consumable (mkDb [stock_row] []) 1
    (mkForm (PyStr "999") "Ethanol" (Some "true"%string) "2026-01-01"
            (PyStr "3") (PyStr "4") (PyStr "7") (PyStr "1")) = Some d' /\
  query_get (consumables d') 1 = Some c /\
  balance_stock c = PyInt (_clamp_nonneg (PyStr "3") + _clamp_nonneg (PyStr "4")) /\
  previous_month_stock c = PyInt (_clamp_nonneg (PyStr "3") + _clamp_nonneg (PyStr "4")
                                  + _clamp_nonneg (PyStr "1")).
Proof.
  apply (proj2 (edit_consumable_ignores_derived_inputs (mkDb [stock_row] []) 1
           (mkForm (PyStr "999") "Ethanol" (Some "true"%string) "2026-01-01"
                   (PyStr "3") (PyStr "4") (PyStr "7") (PyStr "1")) PyNone PyNone) stock_row).
  reflexivity.
Defined.

(** ** Consumable write routes keep the stored counters non-negative *)

Lemma same_off_refl (i : Z) (s : store) : same_off i s s.
Proof. induction s; constructor; auto. Qed.

Lemma same_off_trans (i : Z) (s0 s1 s2 : store) :
  same_off i s0 s1 -> same_off i s1 s2 -> same_off i s0 s2.
Proof.
  intros H01. revert s2.
  induction H01 as [|a b s0 s1 [Hab Hab'] _ IH]; intros s2 H12; inversion H12 as [|b' c s1' s2' [Hbc Hbc'] Hrest]; subst.
  - constructor.
  - constructor; [|apply IH; assumption].
    split; [congruence|]. intro Hc. rewrite Hab' by congruence. apply Hbc'. exact Hc.
Qed.

Lemma same_off_update (i : Z) (s : store) (f : Consumable -> Consumable) :
  (forall c, c_id (f c) = c_id c) -> same_off i s (store_update s i f).
Proof.
  intro Hf. induction s as [|r s IH]; cbn; constructor; [|exact IH].
  destruct (Z.eqb_spec (c_id r) i) as [E|E].
  - split; [rewrite Hf; reflexivity|]. intro Hn. rewrite Hf in Hn. contradiction.
  - split; reflexivity.
Qed.

Lemma same_off_consume (i : Z) (s : store) (q : py_value) :
  same_off i s (fst (consume_by_id s i q)).
Proof.
  destruct (consume_by_id_writes s i q) as [E|[v E]]; rewrite E.
  - apply same_off_refl.
  - apply same_off_update. reflexivity.
Qed.

Lemma recalc_update_ok (i : Z) (s0 s : store) :
  all_stored_ok s0 -> same_off i s0 s -> all_stored_ok (store_update s i recalc_single_row).
Proof.
  intros Hok Hso. induction Hso as [|a b s0 s Hab _ IH]; cbn; constructor.
  - destruct (Z.eqb_spec (c_id b) i) as [E|E].
    + apply recalc_stored_ok.
    + inversion Hok; subst. rewrite <- (proj2 Hab E). assumption.
  - inversion Hok; subst. apply IH. assumption.
Qed.

Lemma update_ok (i : Z) (s : store) (f : Consumable -> Consumable) :
  all_stored_ok s -> (forall c, stored_ok (f c) = true) -> all_stored_ok (store_update s i f).
Proof.
  intros Hok Hf. induction Hok as [|r s Hr _ IH]; cbn; constructor; [|exact IH].
  destruct (c_id r =? i); [apply Hf | exact Hr].
Qed.

(** The write sequence shared by the usage routes: set [units_consumed],
    consume, recalculate, all on the row with id [i]. *)
Lemma use_chain_ok (s : store) (i q : Z) (g : Consumable -> Consumable) :
  all_stored_ok s -> (forall c, c_id (g c) = c_id c) ->
  all_stored_ok
    (store_update (fst (consume_by_id (store_update s i g) i (PyInt q))) i recalc_single_row).
Proof.
  intros Hok Hg. apply (recalc_update_ok i s); [exact Hok|].
  eapply same_off_trans; [apply same_off_update; exact Hg | apply same_off_consume].
Qed.

Lemma bulk_use_step_ok (d : db_state) (cid : option Z) (qv : py_value) (n : Z) :
  all_stored_ok (consumables d) -> all_stored_ok (consumables (fst (bulk_use_step d cid qv n))).
Proof.
  intro Hok. unfold bulk_use_step. destruct cid as [i|]; [|exact Hok].
  destruct (0 <? _clamp_nonneg qv); [|exact Hok].
  destruct (query_get (consumables d) i) as [c|] eqn:Hg; [|exact Hok].
  rewrite (query_get_id _ _ _ Hg). cbn [fst consumables].
  apply use_chain_ok; [exact Hok | reflexivity].
Qed.

(** Every consumable write route ([use_consumable_row], [use_consumable],
    [bulk_use_consumables], [return_consumable], [add_consumable],
    [edit_consumable], [delete_consumable]) keeps the invariant that every
    stored row holds non-negative integers in [items_out],
    [items_on_stock] and [units_consumed]; [add_consumable] even
    establishes it for the row it adds, whatever the form holds. *)
Theorem consumable_routes_keep_stored_ok (d : db_state) :
  all_stored_ok (consumables d) ->
  (forall id new_log q d', use_consumable_row d id new_log q = Some d' ->
     all_stored_ok (consumables d')) /\
  (forall fid q new_log d', use_consumable d fid q new_log = Some d' ->
     all_stored_ok (consumables d')) /\
  (forall ids qs next_log, all_stored_ok (consumables (fst (bulk_use_consumables d ids qs next_log)))) /\
  (forall usage_id now q d' attr, return_consumable d usage_id now q = Some (d', attr) ->
     all_stored_ok (consumables d')) /\
  (forall new_id form, all_stored_ok (consumables (add_consumable d new_id form))) /\
  (forall id form d', edit_consumable d id form = Some d' -> all_stored_ok (consumables d')) /\
  (forall id d', delete_consumable d id = Some d' -> all_stored_ok (consumables d')).
Proof.
  intro Hok. split; [|split; [|split; [|split; [|split; [|split]]]]].
  - intros id new_log q d' H. unfold use_consumable_row in H.
    destruct (query_get (consumables d) id) as [c|] eqn:Hg; [|discriminate].
    destruct (0 <? _clamp_nonneg q); injection H as <-; [|exact Hok].
    apply use_chain_ok; [exact Hok | reflexivity].
  - intros fid q new_log d' H. unfold use_consumable in H.
    destruct (_clamp_nonneg q <=? 0); [injection H as <-; exact Hok|].
    destruct (query_get (consumables d) (_to_int fid 0)); [|discriminate].
    injection H as <-. apply use_chain_ok; [exact Hok | reflexivity].
  - intros ids. revert d Hok. induction ids as [|cid ids IH]; intros d Hok qs n; [exact Hok|].
    cbn [bulk_use_consumables].
    destruct (match qs with [] => (PyInt 1, []) | q :: qs0 => (q, qs0) end) as [qv qs'].
    pose proof (bulk_use_step_ok d cid qv n Hok) as Hs.
    destruct (bulk_use_step d cid qv n) as [d1 n1]. apply IH. exact Hs.
  - intros usage_id now q d' attr H. unfold return_consumable in H.
    destruct (log_get (usage_logs d) usage_id) as [log|]; [|discriminate].
    destruct (query_get (consumables d) (consumable_id log)); [|injection H as <- _; exact Hok].
    destruct (negb (is_returnable c)); [injection H as <- _; exact Hok|].
    destruct (returned_at log); [injection H as <- _; exact Hok|].
    destruct (0 <? _clamp_nonneg q); injection H as <- _; cbn [consumables].
    + apply (recalc_update_ok _ (consumables d)); [exact Hok|].
      apply same_off_update. reflexivity.
    + apply (recalc_update_ok _ (consumables d)); [exact Hok | apply same_off_refl].
  - intros new_id form. unfold add_consumable. cbn [consumables].
    apply Forall_app. split; [exact Hok|]. constructor; [apply recalc_stored_ok | constructor].
  - intros id form d' H. unfold edit_consumable in H.
    destruct (query_get (consumables d) id); [|discriminate]. injection H as <-.
    apply update_ok; [exact Hok|]. intro. apply recalc_stored_ok.
  - intros id d' H. unfold delete_consumable in H.
    destruct (query_get (consumables d) id); [|discriminate]. injection H as <-.
    cbn [consumables]. unfold all_stored_ok in *. rewrite Forall_forall in *.
    intros x Hx. apply filter_In in Hx. apply Hok. apply Hx.
Qed.

Lemma consumable_routes_keep_stored_ok_witness :
  all_stored_ok [sample_row] /\
  all_stored_ok (consumables (add_consumable (mkDb [sample_row] []) 2
    (mkForm (PyStr "x") "Flask" None "" (PyStr "-3") (PyStr "n/a") PyNone (PyStr "4")))).
Proof.
  assert (H : all_stored_ok [sample_row]) by (constructor; [reflexivity | constructor]).
  split; [exact H|].
  exact (proj1 (proj2 (proj2 (proj2 (proj2 (consumable_routes_keep_stored_ok (mkDb [sample_row] []) H)))))
           2 (mkForm (PyStr "x") "Flask" None "" (PyStr "-3") (PyStr "n/a") PyNone (PyStr "4"))).
Defined.

(** ** Deleting a consumable *)

Lemma query_get_none (s : store) (i : Z) :
  (forall x, In x s -> c_id x <> i) -> query_get s i = None.
Proof.
  induction s as [|r s IH]; intro H; cbn; [reflexivity|].
  destruct (Z.eqb_spec (c_id r) i) as [E|E].
  - exfalso. apply (H r); [left; reflexivity | exact E].
  - apply IH. intros x Hx. apply H. right. exact Hx.
Qed.

(** [delete_consumable] answers 404 for a missing id; otherwise no row
    with that id and no usage log pointing at it is left, while every other
    row and every other usage log is kept. *)
Theorem delete_consumable_spec (d : db_state) (id : Z) :
  (query_get (consumables d) id = None -> delete_consumable d id = None) /\
  forall d', delete_consumable d id = Some d' ->
    query_get (consumables d') id = None /\
    (forall l, In l (usage_logs d') -> consumable_id l <> id) /\
    (forall r, In r (consumables d) -> c_id r <> id -> In r (consumables d')) /\
    (forall l, In l (usage_logs d) -> consumable_id l <> id -> In l (usage_logs d')).
Proof.
  split; [intro H; unfold delete_consumable; rewrite H; reflexivity|].
  intros d' H. unfold delete_consumable in H.
  destruct (query_get (consumables d) id) as [c|] eqn:Hg; [|discriminate].
  rewrite (query_get_id _ _ _ Hg) in H. injection H as <-. cbn [consumables usage_logs].
  split; [|split; [|split]].
  - apply query_get_none. intros x Hx. apply filter_In in Hx.
    destruct Hx as [_ Hx]. destruct (Z.eqb_spec (c_id x) id); [discriminate | assumption].
  - intros l Hl. apply filter_In in Hl. destruct Hl as [_ Hl].
    destruct (Z.eqb_spec (consumable_id l) id); [discriminate | assumption].
  - intros r Hr Hn. apply filter_In. split; [exact Hr|].
    apply Z.eqb_neq in Hn. rewrite Hn. reflexivity.
  - intros l Hl Hn. apply filter_In. split; [exact Hl|].
    apply Z.eqb_neq in Hn. rewrite Hn. reflexivity.
Qed.

Lemma delete_consumable_spec_witness :
  delete_consumable (mkDb [sample_row] []) 5 = None /\
  query_get (consumables (mkDb [mkConsumable 2 (PyInt 0) "Tip" None (PyInt 0) (PyInt 0)
                                  (PyInt 0) (PyInt 0) false]
                                [mkUsageLog 3 2 (PyInt 1) None])) 1 = None.
Proof.
  split.
  - apply (proj1 (delete_consumable_spec (mkDb [sample_row] []) 5)). reflexivity.
  - apply (proj1 (proj2 (delete_consumable_spec
                           (mkDb [sample_row; mkConsumable 2 (PyInt 0) "Tip" None (PyInt 0)
                                    (PyInt 0) (PyInt 0) (PyInt 0) false]
                                 [mkUsageLog 3 2 (PyInt 1) None; mkUsageLog 4 1 (PyInt 2) None]) 1)
           (mkDb [mkConsumable 2 (PyInt 0) "Tip" None (PyInt 0) (PyInt 0) (PyInt 0) (PyInt 0) false]
                 [mkUsageLog 3 2 (PyInt 1) None]) eq_refl)).
Defined.

(** ** Using a returnable item and returning it *)

Lemma log_get_id (ls : list UsageLog) (i : Z) (l : UsageLog) :
  log_get ls i = Some l -> u_id l = i.
Proof.
  induction ls as [|x ls IH]; cbn; [discriminate|].
  destruct (Z.eqb_spec (u_id x) i); [intros [= <-]; assumption | exact IH].
Qed.

Lemma log_get_app_fresh (ls : list UsageLog) (l : UsageLog) :
  log_get ls (u_id l) = None -> log_get (ls ++ [l]) (u_id l) = Some l.
Proof.
  induction ls as [|x ls IH]; cbn.
  - rewrite Z.eqb_refl. reflexivity.
  - destruct (u_id x =? u_id l); [discriminate | exact IH].
Qed.

Lemma log_get_update (ls : list UsageLog) (i : Z) (f : UsageLog -> UsageLog) :
  (forall l, u_id (f l) = u_id l) ->
  log_get (log_update ls i f) i = option_map f (log_get ls i).
Proof.
  intro Hf. induction ls as [|x ls IH]; cbn; [reflexivity|].
  destruct (Z.eqb_spec (u_id x) i) as [E|E].
  - rewrite Hf, (proj2 (Z.eqb_eq _ _) E). reflexivity.
  - apply Z.eqb_neq in E. rewrite E. exact IH.
Qed.

Lemma recalc_id (r : Consumable) : c_id (recalc_single_row r) = c_id r.
Proof. exact (proj1 (proj2 (proj2 (proj2 (proj2 (proj2 (recalc_fields r))))))). Qed.

(** The stored effect of [use_consumable_row] on a row holding integers. *)
Lemma use_row_effect (d : db_state) (id new_log : Z) (fq : py_value) (c : Consumable) (a u : Z) :
  query_get (consumables d) id = Some c -> items_out c = PyInt a -> units_consumed c = PyInt u ->
  0 <= a -> 0 <= u -> 0 < _clamp_nonneg fq ->
  let q := _clamp_nonneg fq in
  exists d1 c1,
    use_consumable_row d id new_log fq = Some d1 /\
    usage_logs d1 = usage_logs d ++ [mkUsageLog new_log id (PyInt q) None] /\
    query_get (consumables d1) id = Some c1 /\
    items_out c1 = PyInt (a - Z.min q a) /\ units_consumed c1 = PyInt (u + q) /\
    items_on_stock c1 = PyInt (_clamp_nonneg (items_on_stock c)) /\
    is_returnable c1 = is_returnable c.
Proof.
  intros Hg Ho Hu Ha Hu0 Hq q. fold q in Hq.
  unfold use_consumable_row. rewrite Hg, (query_get_id _ _ _ Hg). fold q.
  rewrite (proj2 (Z.ltb_lt _ _) Hq).
  set (s1 := store_update (consumables d) id _).
  set (c1 := set_units_consumed c (PyInt (_to_int (units_consumed c) 0 + q))).
  assert (H1 : query_get s1 id = Some c1)
    by (unfold s1; rewrite query_get_update by reflexivity; rewrite Hg; reflexivity).
  destruct (consume_by_id_spec _ _ _ _ (PyInt q) H1 Ho Ha) as [_ H2].
  rewrite clamp_PyInt_nonneg in H2 by lia.
  eexists _, _. split; [reflexivity|]. split; [reflexivity|]. cbn [consumables].
  rewrite query_get_update by apply recalc_id. rewrite H2. cbn [option_map].
  split; [reflexivity|]. unfold recalc_single_row.
  destruct (recalc_fields (set_items_out c1 (PyInt (a - Z.min q a))))
    as (Ho' & Hb' & Hu' & _ & _ & _ & _ & _ & Hr').
  rewrite Ho', Hb', Hu', Hr'. unfold c1.
  cbn [items_out items_on_stock units_consumed is_returnable set_items_out set_units_consumed].
  rewrite Hu. cbn [_to_int]. rewrite !clamp_PyInt_nonneg by lia.
  repeat split.
Qed.

(** The stored effect of [return_consumable] on a returnable row holding
    integers, for a log entry not yet returned. *)
Lemma return_effect (d : db_state) (usage_id now : Z) (fq : py_value) (log : UsageLog)
  (c : Consumable) (a u : Z) :
  log_get (usage_logs d) usage_id = Some log -> returned_at log = None ->
  query_get (consumables d) (consumable_id log) = Some c -> is_returnable c = true ->
  items_out c = PyInt a -> units_consumed c = PyInt u -> 0 <= a -> 0 <= u ->
  0 < _clamp_nonneg fq ->
  exists d2 c2,
    return_consumable d usage_id now fq = Some (d2, Some (_clamp_nonneg fq)) /\
    log_get (usage_logs d2) usage_id = Some (set_returned_at log now) /\
    query_get (consumables d2) (consumable_id log) = Some c2 /\
    items_out c2 = PyInt (a + _clamp_nonneg fq) /\ units_consumed c2 = PyInt u /\
    items_on_stock c2 = PyInt (_clamp_nonneg (items_on_stock c)).
Proof.
  intros Hl Hr Hg Hret Ho Hu Ha Hu0 Hq.
  unfold return_consumable. rewrite Hl, Hg, Hret, Hr. cbn [negb].
  rewrite (proj2 (Z.ltb_lt _ _) Hq).
  eexists _, _. split; [reflexivity|]. cbn [consumables usage_logs].
  split; [rewrite log_get_update by reflexivity; rewrite Hl; reflexivity|].
  rewrite !query_get_update by (intros; try reflexivity; apply recalc_id).
  rewrite Hg. cbn [option_map]. split; [reflexivity|]. unfold recalc_single_row.
  destruct (recalc_fields (set_items_out c (PyInt (_to_int (items_out c) 0 + _clamp_nonneg fq))))
    as (Ho' & Hb' & Hu' & _).
  rewrite Ho', Hb', Hu'. cbn [items_out items_on_stock units_consumed set_items_out].
  rewrite Ho, Hu. cbn [_to_int]. rewrite !clamp_PyInt_nonneg by lia.
  repeat split.
Qed.

(** Using [q] units of a returnable row with at least [q] items out (under
    a fresh log id) and then returning that log with the same quantity
    brings [items_out] back to where it was and leaves [items_on_stock]
    as it was, while [units_consumed] stays raised by [q]: a return never
    undoes the consumption count. *)
Theorem use_then_return (d : db_state) (id new_log now : Z) (fq : py_value) (c : Consumable)
  (a u : Z) :
  query_get (consumables d) id = Some c -> is_returnable c = true ->
  items_out c = PyInt a -> units_consumed c = PyInt u -> 0 <= u ->
  log_get (usage_logs d) new_log = None ->
  0 < _clamp_nonneg fq <= a ->
  exists d1 d2 c2,
    use_consumable_row d id new_log fq = Some d1 /\
    return_consumable d1 new_log now fq = Some (d2, Some (_clamp_nonneg fq)) /\
    query_get (consumables d2) id = Some c2 /\
    items_out c2 = PyInt a /\
    units_consumed c2 = PyInt (u + _clamp_nonneg fq) /\
    items_on_stock c2 = PyInt (_clamp_nonneg (items_on_stock c)).
Proof.
  intros Hg Hret Ho Hu Hu0 Hfresh Hq.
  destruct (use_row_effect d id new_log fq c a u Hg Ho Hu ltac:(lia) Hu0 ltac:(lia))
    as (d1 & c1 & Huse & Hlogs & Hg1 & Ho1 & Hu1 & Hb1 & Hr1).
  rewrite Z.min_l in Ho1 by lia.
  assert (Hl1 : log_get (usage_logs d1) new_log
                = Some (mkUsageLog new_log id (PyInt (_clamp_nonneg fq)) None)).
  { rewrite Hlogs. apply (log_get_app_fresh _ (mkUsageLog new_log id _ None)). exact Hfresh. }
  destruct (return_effect d1 new_log now fq _ c1 (a - _clamp_nonneg fq) (u + _clamp_nonneg fq)
              Hl1 eq_refl Hg1 ltac:(rewrite Hr1; exact Hret) Ho1 Hu1 ltac:(lia) ltac:(lia)
              ltac:(lia))
    as (d2 & c2 & Hreturn & _ & Hg2 & Ho2 & Hu2 & Hb2).
  exists d1, d2, c2. split; [exact Huse|]. split; [exact Hreturn|]. split; [exact Hg2|].
  rewrite Hb2, Hb1. cbn [_clamp_nonneg] in *.
  rewrite clamp_PyInt_nonneg by apply clamp_nonneg_ge0.
  replace (a - _clamp_nonneg fq + _clamp_nonneg fq) with a in Ho2 by lia.
  repeat split; assumption.
Qed.

Lemma use_then_return_witness :
  exists d1 d2 c2,
    use_consumable_row (mkDb [sample_row] []) 1 20 (PyStr "3") = Some d1 /\
    return_consumable d1 20 500 (PyStr "3") = Some (d2, Some (_clamp_nonneg (PyStr "3"))) /\
    query_get (consumables d2) 1 = Some c2 /\
    items_out c2 = PyInt 5 /\
    units_consumed c2 = PyInt (2 + _clamp_nonneg (PyStr "3")) /\
    items_on_stock c2 = PyInt (_clamp_nonneg (PyInt 10)).
Proof.
  exact (use_then_return (mkDb [sample_row] []) 1 20 500 (PyStr "3") sample_row 5 2
           eq_refl eq_refl eq_refl eq_refl ltac:(lia) eq_refl ltac:(change (_clamp_nonneg (PyStr "3")) with 3; lia)).
Defined.

(** ** Equipment borrowing *)

Lemma in_use_app (l1 l2 : list BorrowLog) (i : Z) :
  in_use (l1 ++ l2) i = in_use l1 i + in_use l2 i.
Proof. induction l1 as [|l l1 IH]; cbn; [reflexivity | rewrite IH; lia]. Qed.

Lemma find_equipment_id (eqs : list Equipment) (id : Z) (e : Equipment) :
  find (fun e => e_id e =? id) eqs = Some e -> e_id e = id.
Proof.
  induction eqs as [|x eqs IH]; cbn; [discriminate|].
  destruct (Z.eqb_spec (e_id x) id); [intros [= <-]; assumption | exact IH].
Qed.

(** [borrow_equipment_row] answers 404 for a missing item and a server
    error for a quantity [int()] rejects; otherwise it lowers the item's
    [on_stock] by exactly the parsed quantity, with no check against what
    is available (the quantity may exceed [qty] or be negative), and leaves
    every other item's [on_stock] as it was. *)
Theorem borrow_equipment_row_effect (eqs : list Equipment) (logs : list BorrowLog) (id : Z)
  (fq : option string) (new_id : Z) :
  (find (fun e => e_id e =? id) eqs = None -> borrow_equipment_row eqs logs id fq new_id = RNotFound) /\
  forall e, find (fun e => e_id e =? id) eqs = Some e ->
    (form_int fq = None -> borrow_equipment_row eqs logs id fq new_id = RServerError) /\
    forall q, form_int fq = Some q ->
    exists logs',
      borrow_equipment_row eqs logs id fq new_id = ROk logs' /\
      on_stock logs' e = on_stock logs e - q /\
      forall e', e_id e' <> id -> on_stock logs' e' = on_stock logs e'.
Proof.
  unfold borrow_equipment_row. split; [intro H; rewrite H; reflexivity|].
  intros e He. rewrite He. split; [intro H; rewrite H; reflexivity|].
  intros q Hq. rewrite Hq. eexists. split; [reflexivity|].
  pose proof (find_equipment_id _ _ _ He) as Hid.
  unfold on_stock. rewrite !in_use_app. cbn. rewrite Z.eqb_refl. cbn.
  split; [lia|]. intros e' Hne. rewrite in_use_app, Hid. cbn.
  destruct (Z.eqb_spec id (e_id e')) as [E|E]; [congruence | cbn; lia].
Qed.

Lemma borrow_equipment_row_effect_witness :
  exists logs',
    borrow_equipment_row [mkEquipment 3 (Some 2) None] [] 3 (Some " 5 "%string) 10 = ROk logs' /\
    on_stock logs' (mkEquipment 3 (Some 2) None) = on_stock [] (mkEquipment 3 (Some 2) None) - 5 /\
    forall e', e_id e' <> 3 -> on_stock logs' e' = on_stock [] e'.
Proof.
  exact (proj2 (proj2 (borrow_equipment_row_effect [mkEquipment 3 (Some 2) None] [] 3
                         (Some " 5 "%string) 10) (mkEquipment 3 (Some 2) None) eq_refl) 5 eq_refl).
Defined.

Lemma close_log_others (ls : list BorrowLog) (bid now : Z) :
  (forall x, In x ls -> b_id x <> bid) ->
  map (fun l => if b_id l =? bid
                then mkBorrowLog (b_id l) (equipment_id l) (quantity_borrowed l) (Some now)
                else l) ls = ls.
Proof.
  induction ls as [|x ls IH]; intro H; cbn; [reflexivity|].
  destruct (Z.eqb_spec (b_id x) bid) as [E|E].
  - exfalso. apply (H x); [left; reflexivity | exact E].
  - f_equal. apply IH. intros y Hy. apply H. right. exact Hy.
Qed.

Lemma find_borrow_none (ls : list BorrowLog) (bid : Z) :
  (forall x, In x ls -> b_id x <> bid) -> find (fun l => b_id l =? bid) ls = None.
Proof.
  induction ls as [|x ls IH]; intro H; cbn; [reflexivity|].
  destruct (Z.eqb_spec (b_id x) bid) as [E|E].
  - exfalso. apply (H x); [left; reflexivity | exact E].
  - apply IH. intros y Hy. apply H. right. exact Hy.
Qed.

(** Closing the (unique) open log [bid]: the effect of the first
    [return_equipment] on the log list. *)
Lemma close_log_effect (ls : list BorrowLog) (bid now : Z) (l : BorrowLog) :
  NoDup (map b_id ls) -> find (fun l => b_id l =? bid) ls = Some l ->
  let ls' := map (fun l => if b_id l =? bid
                           then mkBorrowLog (b_id l) (equipment_id l) (quantity_borrowed l) (Some now)
                           else l) ls in
  find (fun l => b_id l =? bid) ls' = Some (mkBorrowLog bid (equipment_id l) (quantity_borrowed l) (Some now)) /\
  forall i, in_use ls' i
            = in_use ls i - (if (equipment_id l =? i)
                                && match b_returned_at l with None => true | Some _ => false end
                             then quantity_borrowed l else 0).
Proof.
  intros Hnd Hf ls'. subst ls'.
  induction ls as [|x ls IH]; cbn in Hf |- *; [discriminate|].
  inversion Hnd as [|y ys Hnin Hnd']; subst.
  destruct (Z.eqb_spec (b_id x) bid) as [E|E].
  - injection Hf as <-. rewrite close_log_others.
    2: { intros y Hy Hyb. apply Hnin. rewrite E, <- Hyb. apply in_map. exact Hy. }
    cbn [b_id equipment_id quantity_borrowed b_returned_at]. rewrite E, Z.eqb_refl.
    split; [reflexivity|]. intro i. cbn. rewrite andb_false_r. lia.
  - destruct (IH Hnd' Hf) as [IH1 IH2]. apply Z.eqb_neq in E. rewrite E.
    split; [exact IH1|]. intro i. cbn. rewrite IH2. lia.
Qed.

(** [return_equipment] answers 404 for a missing log.  On a log not yet
    returned (log ids being unique) it stamps [returned_at] and lowers the
    [in_use] of that log's item by its [quantity_borrowed], leaving every
    other item's [in_use] as it was; a second return, or a return of a log
    already returned, changes nothing, so the first timestamp is kept. *)
Theorem return_equipment_spec (logs : list BorrowLog) (bid now now' : Z) :
  (find (fun l => b_id l =? bid) logs = None -> return_equipment logs bid now = RNotFound) /\
  forall l, NoDup (map b_id logs) -> find (fun l => b_id l =? bid) logs = Some l ->
    (b_returned_at l <> None -> return_equipment logs bid now = ROk logs) /\
    (b_returned_at l = None ->
     exists logs',
       return_equipment logs bid now = ROk logs' /\
       find (fun l => b_id l =? bid) logs'
         = Some (mkBorrowLog bid (equipment_id l) (quantity_borrowed l) (Some now)) /\
       in_use logs' (equipment_id l) = in_use logs (equipment_id l) - quantity_borrowed l /\
       (forall i, i <> equipment_id l -> in_use logs' i = in_use logs i) /\
       return_equipment logs' bid now' = ROk logs').
Proof.
  unfold return_equipment. split; [intro H; rewrite H; reflexivity|].
  intros l Hnd Hf. rewrite Hf. split.
  - intro Hr. destruct (b_returned_at l); [reflexivity | contradiction].
  - intro Hr. rewrite Hr. eexists. split; [reflexivity|].
    destruct (close_log_effect logs bid now l Hnd Hf) as [H1 H2].
    rewrite Hr in H2. split; [exact H1|]. split; [|split].
    + rewrite H2, Z.eqb_refl. cbn. lia.
    + intros i Hi. rewrite H2.
      assert (E : (equipment_id l =? i) = false) by (apply Z.eqb_neq; congruence).
      rewrite E. cbn. lia.
    + rewrite H1. reflexivity.
Qed.

Lemma return_equipment_spec_witness :
  exists logs',
    return_equipment [mkBorrowLog 1 3 2 None; mkBorrowLog 2 3 4 None] 1 50 = ROk logs' /\
    find (fun l => b_id l =? 1) logs' = Some (mkBorrowLog 1 3 2 (Some 50)) /\
    in_use logs' 3 = in_use [mkBorrowLog 1 3 2 None; mkBorrowLog 2 3 4 None] 3 - 2 /\
    (forall i, i <> 3 -> in_use logs' i = in_use [mkBorrowLog 1 3 2 None; mkBorrowLog 2 3 4 None] i) /\
    return_equipment logs' 1 60 = ROk logs'.
Proof.
  assert (Hnd : NoDup (map b_id [mkBorrowLog 1 3 2 None; mkBorrowLog 2 3 4 None])).
  { cbn. constructor; [intros [H|[]]; discriminate | constructor; [intros [] | constructor]]. }
  exact (proj2 (proj2 (return_equipment_spec [mkBorrowLog 1 3 2 None; mkBorrowLog 2 3 4 None]
                         1 50 60) (mkBorrowLog 1 3 2 None) Hnd eq_refl) eq_refl).
Defined.

(** [bulk_borrow_equipment] only appends logs, each open and with a
    positive quantity, at most one per entry; the [in_use] of every item
    rises by exactly the clamped quantities requested for it (default 1),
    whether or not the item exists and whatever its [qty]. *)
Theorem bulk_borrow_equipment_spec (logs : list BorrowLog) (ids : list (option Z))
  (qs : list py_value) (next_id : Z) :
  (exists added,
     bulk_borrow_equipment logs ids qs next_id = logs ++ added /\
     Forall (fun l => 0 < quantity_borrowed l /\ b_returned_at l = None) added /\
     (List.length added <= List.length ids)%nat) /\
  forall i, in_use (bulk_borrow_equipment logs ids qs next_id) i
            = in_use logs i + bulk_requested i ids qs.
Proof.
  revert logs qs next_id. induction ids as [|cid ids IH]; intros logs qs n.
  - split; [exists []; rewrite app_nil_r; repeat split; constructor|].
    intro i. cbn. lia.
  - cbn [bulk_borrow_equipment bulk_requested].
    destruct (match qs with [] => (PyInt 1, []) | q :: qs0 => (q, qs0) end) as [qv qs'].
    pose proof (clamp_nonneg_ge0 qv) as Hq0.
    destruct cid as [e|].
    + destruct (Z.ltb_spec 0 (_clamp_nonneg qv)) as [Hq|Hq].
      * destruct (IH (logs ++ [mkBorrowLog n e (_clamp_nonneg qv) None]) qs' (n + 1))
          as [(added & Ha & Hf & Hl) Hi].
        split.
        -- exists (mkBorrowLog n e (_clamp_nonneg qv) None :: added).
           rewrite Ha, <- app_assoc. split; [reflexivity|]. split; [constructor; auto|].
           cbn. lia.
        -- intro i. rewrite Hi, in_use_app. cbn.
           destruct (e =? i); cbn; lia.
      * destruct (IH logs qs' n) as [(added & Ha & Hf & Hl) Hi].
        split; [exists added; repeat split; auto; cbn; lia|].
        intro i. rewrite Hi. assert (_clamp_nonneg qv = 0) as -> by lia.
        destruct (e =? i); lia.
    + destruct (IH logs qs' n) as [(added & Ha & Hf & Hl) Hi].
      split; [exists added; repeat split; auto; cbn; lia|].
      intro i. rewrite Hi. lia.
Qed.

(** ** Student notes *)

(** [toggle_note_status] keeps the note's id and always leaves the note
    consistent: either resolved with the time and the user recorded, or
    pending with both cleared.  A note in any status other than 'pending'
    (not only 'resolved') is reopened, and toggling a pending note twice
    gives it back pending with no resolution recorded. *)
Theorem toggle_note_spec (now user_id now' user_id' : Z) (note : StudentNote) :
  let note' := toggle_note now user_id note in
  n_id note' = n_id note /\
  ((n_status note' = "resolved"%string /\ resolved_at note' = Some now
    /\ resolved_by note' = Some user_id) \/
   (n_status note' = "pending"%string /\ resolved_at note' = None /\ resolved_by note' = None)) /\
  (n_status note <> "pending"%string -> n_status note' = "pending"%string) /\
  (n_status note = "pending"%string ->
   toggle_note now' user_id' note' = mkNote (n_id note) "pending" None None).
Proof.
  intro note'. subst note'. unfold toggle_note.
  destruct (String.eqb_spec (n_status note) "pending") as [E|E]; cbn.
  - split; [reflexivity|]. split; [left; repeat split|].
    split; [intro H; contradiction | intros _; reflexivity].
  - split; [reflexivity|]. split; [right; repeat split|].
    split; [intros _; reflexivity | intro H; contradiction].
Qed.

Lemma toggle_note_spec_witness :
  n_status (toggle_note 10 2 (mkNote 4 "archived" None None)) = "pending"%string /\
  toggle_note 20 3 (toggle_note 10 2 (mkNote 4 "pending" None None)) = mkNote 4 "pending" None None.
Proof.
  split.
  - apply (proj1 (proj2 (proj2 (toggle_note_spec 10 2 20 3 (mkNote 4 "archived" None None))))).
    discriminate.
  - apply (proj2 (proj2 (proj2 (toggle_note_spec 10 2 20 3 (mkNote 4 "pending" None None))))).
    reflexivity.
Defined.

(** ** Maintenance reads *)

(** A maintenance read changes a record only by turning a 'scheduled'
    record whose date has passed into 'overdue' (ids and dates are never
    touched, 'completed' and 'overdue' records never change).  Two reads on
    the same day, whatever records each one loads (the list page's
    filters, the dashboard's first five past-due records, the analytics
    page), have the effect of one read of every record either of them
    loads; in particular repeating a read that loads the same records
    changes nothing more. *)
Theorem maintenance_read_spec (today : Z) (sel sel' : Maintenance -> bool)
  (records : list Maintenance) :
  Forall2 (fun r r' => r' = r \/
                       (status r = Scheduled /\ scheduled_date r < today /\
                        r' = set_status r Overdue))
          records (maintenance_read today sel records) /\
  maintenance_read today sel' (maintenance_read today sel records)
  = maintenance_read today (fun r => sel r || sel' r) records.
Proof.
  assert (Hidem : forall r, overdue_update today (overdue_update today r) = overdue_update today r).
  { intro r. unfold overdue_update.
    destruct (mstatus_eqb (status r) Scheduled && (scheduled_date r <? today)) eqn:E;
      [cbn; reflexivity | rewrite E; reflexivity]. }
  split.
  - induction records as [|r rs IH]; cbn; constructor; [|exact IH].
    destruct (sel r); [|left; reflexivity]. unfold overdue_update.
    destruct (mstatus_eqb (status r) Scheduled && (scheduled_date r <? today)) eqn:E;
      [|left; reflexivity].
    apply andb_prop in E as [E1 E2]. right.
    split; [destruct (status r); first [reflexivity | discriminate]|].
    split; [apply Z.ltb_lt; exact E2 | reflexivity].
  - unfold maintenance_read. rewrite map_map. apply map_ext. intro r.
    destruct (sel r) eqn:Es; cbn [orb].
    + destruct (sel' (overdue_update today r)); [apply Hidem | reflexivity].
    + reflexivity.
Qed.

(** ** Barcodes *)

Lemma format_ok_from_spec (lo : Z) (k : nat) :
  format_ok_from lo k = true -> forall n, lo <= n < lo + Z.of_nat k -> format_ok n = true.
Proof.
  revert lo. induction k as [|k IH]; intros lo H n Hn; [lia|].
  cbn in H. apply andb_prop in H as [H1 H2].
  destruct (Z.eq_dec n lo) as [->|Hne]; [exact H1|].
  apply (IH (lo + 1) H2). lia.
Qed.

Lemma str_length_app (s1 s2 : string) :
  String.length (s1 ++ s2) = (String.length s1 + String.length s2)%nat.
Proof. induction s1 as [|c s1 IH]; cbn; [reflexivity | rewrite IH; reflexivity]. Qed.

(** For every id from -999 to 9999, [format(id, '04d')] is exactly four
    characters long and [int()] reads the id back from it; so a generated
    barcode is six characters longer than its prefix and suffix together. *)
Theorem format_04d_spec (n : Z) (prefix suffix : string) :
  -999 <= n <= 9999 ->
  String.length (format_04d n) = 4%nat /\ py_int (format_04d n) = Some n /\
  String.length (generate_barcode_string prefix n suffix)
  = (String.length prefix + String.length suffix + 6)%nat.
Proof.
  intro Hn.
  assert (Hall : format_ok_from (-999) (Z.to_nat 10999) = true) by (vm_compute; reflexivity).
  pose proof (format_ok_from_spec _ _ Hall n ltac:(rewrite Z2Nat.id; lia)) as H.
  unfold format_ok in H. apply andb_prop in H as [Hl Hp].
  apply Nat.eqb_eq in Hl.
  assert (Hp' : py_int (format_04d n) = Some n).
  { destruct (py_int (format_04d n)) as [m|]; [|discriminate].
    apply Z.eqb_eq in Hp. rewrite Hp. reflexivity. }
  split; [exact Hl|]. split; [exact Hp'|].
  unfold generate_barcode_string. rewrite !str_length_app, Hl. cbn. lia.
Qed.

Lemma format_04d_spec_witness :
  String.length (format_04d 42) = 4%nat /\ py_int (format_04d 42) = Some 42 /\
  String.length (generate_barcode_string "EQ" 42 "AB12")
  = (String.length "EQ" + String.length "AB12" + 6)%nat.
Proof. apply format_04d_spec. lia. Defined.

(** [ensure_equipment_barcode] keeps the item's id and quantity, stores the
    barcode it returns, never returns an empty one, keeps a non-empty
    barcode already there, and once it has run a later call (with any new
    random suffix) changes nothing and returns the same barcode. *)
Theorem ensure_equipment_barcode_spec (e : Equipment) (suffix suffix' : string) :
  let e1 := fst (ensure_equipment_barcode e suffix) in
  let b := snd (ensure_equipment_barcode e suffix) in
  e_id e1 = e_id e /\ qty e1 = qty e /\ e_barcode e1 = Some b /\ b <> ""%string /\
  (forall b0, e_barcode e = Some b0 -> b0 <> ""%string -> e1 = e /\ b = b0) /\
  ensure_equipment_barcode e1 suffix' = (e1, b).
Proof.
  intros e1 b. subst e1 b. unfold ensure_equipment_barcode.
  destruct (e_barcode e) as [b0|] eqn:Eb.
  - destruct (String.eqb_spec b0 "") as [E|E]; cbn.
    + split; [reflexivity|]. split; [reflexivity|]. split; [reflexivity|].
      split; [discriminate|]. split; [|reflexivity].
      intros x Hx Hne. injection Hx as Hx. subst x. contradiction.
    + split; [reflexivity|]. split; [reflexivity|]. split; [exact Eb|].
      split; [exact E|]. split.
      * intros x Hx _. injection Hx as Hx. subst x. split; reflexivity.
      * rewrite Eb. destruct (String.eqb_spec b0 ""); [contradiction | reflexivity].
  - cbn. split; [reflexivity|]. split; [reflexivity|]. split; [reflexivity|].
    split; [discriminate|]. split; [|reflexivity]. intros x Hx. discriminate.
Qed.

Lemma ensure_equipment_barcode_spec_witness :
  fst (ensure_equipment_barcode (mkEquipment 7 (Some 1) (Some "EQ-0007-1A2B"%string)) "FFFF")
  = mkEquipment 7 (Some 1) (Some "EQ-0007-1A2B"%string) /\
  snd (ensure_equipment_barcode (mkEquipment 7 (Some 1) (Some "EQ-0007-1A2B"%string)) "FFFF")
  = "EQ-0007-1A2B"%string.
Proof.
  apply (proj1 (proj2 (proj2 (proj2 (proj2
           (ensure_equipment_barcode_spec (mkEquipment 7 (Some 1) (Some "EQ-0007-1A2B"%string))
              "FFFF" "0000"))))) "EQ-0007-1A2B"%string); [reflexivity | discriminate].
Defined.

Lemma find_app_first {A : Type} (f : A -> bool) (pre post : list A) (x : A) :
  Forall (fun y => f y = false) pre -> f x = true -> find f (pre ++ x :: post) = Some x.
Proof.
  intros Hpre Hx. induction Hpre as [|y pre Hy _ IH]; cbn; [rewrite Hx; reflexivity|].
  rewrite Hy. exact IH.
Qed.

Lemma find_none_forall {A : Type} (f : A -> bool) (l : list A) :
  Forall (fun y => f y = false) l -> find f l = None.
Proof. induction 1 as [|y l Hy _ IH]; cbn; [reflexivity | rewrite Hy; exact IH]. Qed.

(** [barcode_lookup] answers 400 for a code that is empty after
    stripping.  Otherwise it finds an item by its stored barcode: the first
    equipment carrying it, and a consumable only when no equipment carries
    it (equipment takes precedence). *)
Theorem barcode_lookup_spec (eqs : list Equipment) (cons : list (Z * option string))
  (code : string) :
  (strip code = ""%string -> barcode_lookup eqs cons code = LNoCode) /\
  (forall pre e post b,
     eqs = pre ++ e :: post -> e_barcode e = Some b -> strip code = b -> b <> ""%string ->
     Forall (fun x => e_barcode x <> Some b) pre ->
     barcode_lookup eqs cons code = LEquipment e) /\
  (forall pre id post b,
     cons = pre ++ (id, Some b) :: post -> strip code = b -> b <> ""%string ->
     Forall (fun x => e_barcode x <> Some b) eqs -> Forall (fun c => snd c <> Some b) pre ->
     barcode_lookup eqs cons code = LConsumable id).
Proof.
  assert (Hneq : forall (o : option string) b, o <> Some b ->
            match o with Some b' => String.eqb b' b | None => false end = false).
  { intros [b'|] b H; [|reflexivity]. destruct (String.eqb_spec b' b); congruence. }
  unfold barcode_lookup. split; [|split].
  - intro H. rewrite H. reflexivity.
  - intros pre e post b -> He Hs Hb Hpre. rewrite Hs.
    destruct (String.eqb_spec b ""); [contradiction|].
    rewrite find_app_first with (x := e); [reflexivity| |].
    + eapply Forall_impl; [|exact Hpre]. intros x Hx. apply Hneq. exact Hx.
    + rewrite He. apply String.eqb_refl.
  - intros pre id post b -> Hs Hb Heqs Hpre. rewrite Hs.
    destruct (String.eqb_spec b ""); [contradiction|].
    rewrite find_none_forall.
    2: { eapply Forall_impl; [|exact Heqs]. intros x Hx. apply Hneq. exact Hx. }
    rewrite find_app_first with (x := (id, Some b)); [reflexivity| |].
    + eapply Forall_impl; [|exact Hpre]. intros x Hx. apply Hneq. exact Hx.
    + cbn. apply String.eqb_refl.
Qed.

Lemma barcode_lookup_spec_witness :
  barcode_lookup [mkEquipment 1 (Some 2) (Some "EQ-0001-AB12"%string)] [] "   "%string = LNoCode /\
  barcode_lookup [mkEquipment 1 (Some 2) (Some "EQ-0001-AB12"%string)]
                 [(5, Some "EQ-0001-AB12"%string)] " EQ-0001-AB12 "%string
  = LEquipment (mkEquipment 1 (Some 2) (Some "EQ-0001-AB12"%string)) /\
  barcode_lookup [mkEquipment 1 (Some 2) None] [(5, Some "CON-0005-77F0"%string)]
                 "CON-0005-77F0"%string = LConsumable 5.
Proof.
  split; [|split].
  - apply (proj1 (barcode_lookup_spec [mkEquipment 1 (Some 2) (Some "EQ-0001-AB12"%string)] []
                    "   "%string)). vm_compute. reflexivity.
  - apply (proj1 (proj2 (barcode_lookup_spec [mkEquipment 1 (Some 2) (Some "EQ-0001-AB12"%string)]
                           [(5, Some "EQ-0001-AB12"%string)] " EQ-0001-AB12 "%string))
             [] _ [] "EQ-0001-AB12"%string); [reflexivity | reflexivity | vm_compute; reflexivity
                                               | discriminate | constructor].
  - apply (proj2 (proj2 (barcode_lookup_spec [mkEquipment 1 (Some 2) None]
                           [(5, Some "CON-0005-77F0"%string)] "CON-0005-77F0"%string))
             [] 5 [] "CON-0005-77F0"%string);
      [reflexivity | vm_compute; reflexivity | discriminate
      | constructor; [discriminate | constructor] | constructor].
Defined.

(** ** Consumption never draws on [items_on_stock] *)

Lemma set_items_out_keeps_on_stock (s : store) (i : Z) (v : py_value) :
  map items_on_stock (store_update s i (fun c => set_items_out c v)) = map items_on_stock s.
Proof.
  unfold store_update. induction s as [|r s IH]; [reflexivity|].
  cbn [map]. rewrite IH. destruct (c_id r =? i); reflexivity.
Qed.

(** Consuming 3 from the one row of its group, with [items_on_stock = 5]
    (and five items out), through the consumption the program performs
    ([use_consumable_row], which calls [consume_by_id]), does not leave
    [items_on_stock = 2]. *)
Lemma use_consumable_row_not_on_stock :
  ~ (exists d' c', use_consumable_row (mkDb [stock_row] []) 1 20 (PyStr "3") = Some d' /\
                   query_get (consumables d') 1 = Some c' /\
                   items_on_stock c' = PyInt 2).
Proof.
  intros (d' & c' & H1 & H2 & H3). vm_compute in H1. injection H1 as <-.
  vm_compute in H2. injection H2 as <-. vm_compute in H3. discriminate H3.
Qed.

(** C4 (as the code has it).  The only consumption the program performs is
    [consume_by_id] (Policy A, [consume_from_group], is commented out and
    has no caller).  It takes [min q items_out] from the row's [items_out]
    and never changes any row's [items_on_stock]; through
    [use_consumable_row] a stored row keeps its [items_on_stock], its
    [items_out] drops by [min q items_out], its [units_consumed] rises by
    [q], and the remainder is [q - min q items_out]. *)
Theorem consumption_keeps_items_on_stock (d : db_state) (id new_log : Z)
  (form_quantity : py_value) (c : Consumable) (a b uc : Z) :
  query_get (consumables d) id = Some c ->
  items_out c = PyInt a -> items_on_stock c = PyInt b -> units_consumed c = PyInt uc ->
  0 <= a -> 0 <= b -> 0 <= uc ->
  let q := _clamp_nonneg form_quantity in
  map items_on_stock (fst (consume_by_id (consumables d) id (PyInt q)))
    = map items_on_stock (consumables d) /\
  snd (consume_by_id (consumables d) id (PyInt q)) = q - Z.min q a /\
  exists d' c',
    use_consumable_row d id new_log form_quantity = Some d' /\
    query_get (consumables d') id = Some c' /\
    items_on_stock c' = PyInt b /\
    items_out c' = PyInt (a - Z.min q a) /\
    units_consumed c' = PyInt (uc + q).
Proof.
  intros Hg Ho Hb Hu Ha Hb0 Hu0 q.
  pose proof (clamp_nonneg_ge0 form_quantity) as Hq. fold q in Hq.
  split.
  { destruct (consume_by_id_writes (consumables d) id (PyInt q)) as [E|[v E]]; rewrite E;
      [reflexivity | apply set_items_out_keeps_on_stock]. }
  split.
  { destruct (consume_by_id_spec _ _ _ _ (PyInt q) Hg Ho Ha) as [H _].
    rewrite H, clamp_PyInt_nonneg by exact Hq. reflexivity. }
  destruct (Z.ltb_spec 0 q) as [Hpos|Hpos].
  - destruct (use_row_effect d id new_log form_quantity c a uc Hg Ho Hu Ha Hu0 Hpos)
      as (d1 & c1 & Huse & _ & Hg1 & Ho1 & Hu1 & Hb1 & _).
    exists d1, c1. rewrite Hb, clamp_PyInt_nonneg in Hb1 by exact Hb0.
    repeat split; assumption.
  - assert (Hz : q = 0) by lia. exists d, c.
    unfold use_consumable_row. rewrite Hg. fold q. rewrite Hz. cbn [Z.ltb Z.compare].
    rewrite Z.min_l, Z.sub_0_r, Z.add_0_r by exact Ha.
    repeat split; assumption.
Qed.

Lemma consumption_keeps_items_on_stock_witness :
  exists d' c',
    use_consumable_row (mkDb [stock_row] []) 1 20 (PyStr "3") = Some d' /\
    query_get (consumables d') 1 = Some c' /\
    items_on_stock c' = PyInt 5 /\
    items_out c' = PyInt (5 - Z.min (_clamp_nonneg (PyStr "3")) 5) /\
    units_consumed c' = PyInt (0 + _clamp_nonneg (PyStr "3")).
Proof.
  exact (proj2 (proj2 (consumption_keeps_items_on_stock (mkDb [stock_row] []) 1 20 (PyStr "3")
           stock_row 5 5 0 eq_refl eq_refl eq_refl eq_refl ltac:(lia) ltac:(lia) ltac:(lia)))).
Defined.
